(** * Admin content-editing workflow of the CMS frontend

    A shallow embedding of the form, upload and list handlers of
    [src/frontend/src/app/admin/**] and of the [ImageUpload] component,
    together with the properties the specification states about them. *)

From Stdlib Require Import ZArith NArith List String Ascii Bool Lia.
From Stdlib Require Import Numbers.DecimalString.
From Stdlib Require Numbers.DecimalZ.
From stdpp Require Import base option gmap strings.
Import ListNotations.

Set Warnings "-register-all".

(** ** JavaScript strings

    A JavaScript string is a sequence of UTF-16 code units.  Regular
    expressions without the [u] flag, [String.prototype.trim] and [length]
    all work on code units, so that is the representation used wherever a
    string is taken apart. *)

Module JsString.

Local Open Scope N_scope.

Definition codeUnit := N.
Definition jsstring := list codeUnit.

(** An ASCII literal as a JavaScript string. *)
Definition js (s : string) : jsstring :=
  List.map N_of_ascii (list_ascii_of_string s).

Definition inRange (lo hi c : codeUnit) : bool :=
  (N.leb lo c && N.leb c hi)%bool.

Definition isLowerAlpha (c : codeUnit) : bool := inRange 97 122 c.
Definition isUpperAlpha (c : codeUnit) : bool := inRange 65 90 c.
Definition isDigit (c : codeUnit) : bool := inRange 48 57 c.
Definition isHyphen (c : codeUnit) : bool := N.eqb c 45.

(** The class [\s] of ECMAScript: WhiteSpace (TAB, VT, FF, ZWNBSP and the
    space separators) and LineTerminator (LF, CR, LS, PS). *)
Definition isWhiteSpace (c : codeUnit) : bool :=
  (inRange 9 13 c
   || N.eqb c 32 || N.eqb c 160 || N.eqb c 5760
   || inRange 8192 8202 c
   || N.eqb c 8232 || N.eqb c 8233 || N.eqb c 8239 || N.eqb c 8287
   || N.eqb c 12288 || N.eqb c 65279)%bool.

(** [s.replace(/[X]+/g, r)] for a character class [X]: every maximal run of
    code units of the class is replaced by one copy of [r].  [inRun] says
    that the previous code unit already belonged to the current run. *)
Fixpoint replaceRunsFrom (X : codeUnit -> bool) (r : jsstring)
    (inRun : bool) (s : jsstring) : jsstring :=
  match s with
  | [] => []
  | c :: s' =>
      if X c then
        if inRun then replaceRunsFrom X r true s'
        else r ++ replaceRunsFrom X r true s'
      else c :: replaceRunsFrom X r false s'
  end.

Definition replaceRuns (X : codeUnit -> bool) (r s : jsstring) : jsstring :=
  replaceRunsFrom X r false s.

(** [s.replace(/[^X]/g, '')]: the code units outside the class are deleted. *)
Definition removeOutside (X : codeUnit -> bool) (s : jsstring) : jsstring :=
  List.filter X s.

Fixpoint trimStart (s : jsstring) : jsstring :=
  match s with
  | [] => []
  | c :: s' => if isWhiteSpace c then trimStart s' else s
  end.

Definition trimEnd (s : jsstring) : jsstring := rev (trimStart (rev s)).

(** [String.prototype.trim] takes no parameter: an argument passed to it is
    ignored, and white space and line terminators are removed at both ends. *)
Definition trim (s : jsstring) : jsstring := trimEnd (trimStart s).

(** [String.prototype.toLowerCase] on a string of ASCII code units: [A]-[Z]
    become [a]-[z], every other code unit stays.  (Outside ASCII the built-in
    follows the Unicode case tables; the development takes the lower-casing
    function as a variable wherever a statement is about every string.) *)
Definition toLowerCaseASCII (s : jsstring) : jsstring :=
  List.map (fun c => if isUpperAlpha c then c + 32 else c) s.

End JsString.
Import JsString.

(** ** The new-page form: [src/frontend/src/app/admin/pages/new/page.tsx] *)

Module NewPage.

(** The class [[a-z0-9\s-]] whose complement the first replacement deletes. *)
Definition slugSourceClass (c : codeUnit) : bool :=
  (isLowerAlpha c || isDigit c || isWhiteSpace c || isHyphen c)%bool.

(** What a form field holds: [type === 'checkbox' ? checked : value]. *)
Inductive FieldValue :=
  | VStr (s : jsstring)
  | VBool (b : bool).

(** JavaScript truthiness of a field read from the form object; a missing
    key reads as [undefined]. *)
Definition truthy (v : option FieldValue) : bool :=
  match v with
  | None => false
  | Some (VStr s) => negb (Nat.eqb (List.length s) 0)
  | Some (VBool b) => b
  end.

(** [e.target] of a change event. *)
Record ChangeEvent := {
  name : string;
  value : jsstring;
  type : string;
  checked : bool
}.

(** [type === 'checkbox' ? e.target.checked : value] *)
Definition fieldValue (e : ChangeEvent) : FieldValue :=
  if String.eqb (type e) "checkbox" then VBool (checked e) else VStr (value e).

Section Form.

(** The built-in [String.prototype.toLowerCase]. *)
Variable toLowerCase : jsstring -> jsstring.

(** Lines 55-58: the title's text after the three replacements. *)
Definition slugBeforeTrim (value : jsstring) : jsstring :=
  replaceRuns isHyphen (js "-")
    (replaceRuns isWhiteSpace (js "-")
       (removeOutside slugSourceClass (toLowerCase value))).

(** Lines 55-59: the slug computed from the title's text. *)
Definition deriveSlug (value : jsstring) : jsstring :=
  trim (slugBeforeTrim value).

(** [handleInputChange]: [formData] is the state of the render the handler
    belongs to; the three functional updates are applied in order to it. *)
Definition handleInputChange (formData : gmap string FieldValue)
    (e : ChangeEvent) : gmap string FieldValue :=
  let prev1 :=
    <[name e := fieldValue e]> formData in
  let prev2 :=
    if (String.eqb (name e) "title" && negb (truthy (formData !! "slug")))%bool
    then <["slug" := VStr (deriveSlug (value e))]> prev1
    else prev1 in
  if (String.eqb (name e) "title" && negb (truthy (formData !! "meta_title")))%bool
  then <["meta_title" := VStr (value e)]> prev2
  else prev2.

(** [handleContentChange] (lines 69-71). *)
Definition handleContentChange (formData : gmap string FieldValue)
    (content : jsstring) : gmap string FieldValue :=
  <["content" := VStr content]> formData.

(** [handleImageUpload] (lines 73-75). *)
Definition handleImageUpload (formData : gmap string FieldValue)
    (imageUrl : jsstring) : gmap string FieldValue :=
  <["featured_image" := VStr imageUrl]> formData.

(** One edit of the draft: a change event of an input, a new text from the
    rich-text editor, or a reference from the image upload. *)
Inductive Edit :=
  | Input (e : ChangeEvent)
  | Content (content : jsstring)
  | Image (imageUrl : jsstring).

Definition applyEdit (formData : gmap string FieldValue) (ed : Edit)
    : gmap string FieldValue :=
  match ed with
  | Input e => handleInputChange formData e
  | Content content => handleContentChange formData content
  | Image imageUrl => handleImageUpload formData imageUrl
  end.

(** An editing session: the edits in the order they happen, each handled on
    the state the previous one left. *)
Definition session (formData : gmap string FieldValue)
    (edits : list Edit) : gmap string FieldValue :=
  fold_left applyEdit edits formData.

End Form.

(** The initial state of the form (lines 15-31). *)
Definition initialFormData : gmap string FieldValue :=
  <["title" := VStr []]> (<["slug" := VStr []]> (<["status" := VStr (js "draft")]>
  (<["content" := VStr []]> (<["excerpt" := VStr []]> (<["section_id" := VStr []]>
  (<["template_name" := VStr (js "default")]> (<["requires_auth" := VBool false]>
  (<["featured_image" := VStr []]> (<["meta_title" := VStr []]>
  (<["meta_description" := VStr []]> (<["canonical_url" := VStr []]>
  (<["robots_txt" := VStr (js "index, follow")]> (<["og_title" := VStr []]>
  (<["og_description" := VStr []]> ∅)))))))))))))).

(** The user never clears the slug field in these edits. *)
Definition slugNeverCleared (edits : list Edit) : Prop :=
  Forall (fun ed =>
            match ed with
            | Input e => name e = "slug" -> truthy (Some (fieldValue e)) = true
            | Content _ | Image _ => True
            end) edits.

(** The change event of the text input named [field] once it holds [text]. *)
Definition textInput (field : string) (text : jsstring) : ChangeEvent :=
  {| name := field; value := text; type := "text"; checked := false |}.

(** Shape of a slug, as decidable checks on the code units. *)
Definition isSlugUnit (c : codeUnit) : bool :=
  (isLowerAlpha c || isDigit c || isHyphen c)%bool.

Definition startsWithHyphen (s : jsstring) : bool :=
  match s with
  | c :: _ => isHyphen c
  | [] => false
  end.

Definition endsWithHyphen (s : jsstring) : bool := startsWithHyphen (rev s).

Fixpoint hasHyphenRun (s : jsstring) : bool :=
  match s with
  | c :: s' => (isHyphen c && startsWithHyphen s' || hasHyphenRun s')%bool
  | [] => false
  end.

End NewPage.

(** ** Event handlers

    A handler runs on the component's state, may call the outside world
    (network, object URLs, the parent's callback, the console) and may throw.
    The calls are recorded in the order they happen. *)

Module Handler.

Section Monad.

Context {St Ev Err : Type}.

Inductive Outcome (A : Type) :=
  | Returned (a : A)
  | Threw (e : Err).
Arguments Returned {A} a.
Arguments Threw {A} e.

Definition M (A : Type) : Type := St -> list Ev -> Outcome A * St * list Ev.

Definition ret {A} (a : A) : M A := fun st tr => (Returned a, st, tr).

Definition bind {A B} (m : M A) (k : A -> M B) : M B :=
  fun st tr =>
    match m st tr with
    | (Returned a, st', tr') => k a st' tr'
    | (Threw e, st', tr') => (Threw e, st', tr')
    end.

Definition throw {A} (e : Err) : M A := fun st tr => (Threw e, st, tr).

(** A call to the outside world. *)
Definition emit (ev : Ev) : M unit := fun st tr => (Returned tt, st, tr ++ [ev]).

Definition getState : M St := fun st tr => (Returned st, st, tr).

Definition modify (f : St -> St) : M unit := fun st tr => (Returned tt, f st, tr).

(** [try { body } catch (e) { handler e }]. *)
Definition tryCatch {A} (body : M A) (handler : Err -> M A) : M A :=
  fun st tr =>
    match body st tr with
    | (Returned a, st', tr') => (Returned a, st', tr')
    | (Threw e, st', tr') => handler e st' tr'
    end.

(** [try { body } finally { fin }]: [fin] runs on both exits and the
    outcome of [body] stands unless [fin] throws itself. *)
Definition tryFinally {A} (body : M A) (fin : M unit) : M A :=
  fun st tr =>
    match body st tr with
    | (o, st', tr') =>
        match fin st' tr' with
        | (Returned _, st'', tr'') => (o, st'', tr'')
        | (Threw e, st'', tr'') => (Threw e, st'', tr'')
        end
    end.

Definition tryCatchFinally {A} (body : M A) (handler : Err -> M A)
    (fin : M unit) : M A :=
  tryFinally (tryCatch body handler) fin.

End Monad.

Arguments Outcome : clear implicits.
Arguments M : clear implicits.
Arguments Returned {Err A} a.
Arguments Threw {Err A} e.

Declare Scope handler_scope.
Delimit Scope handler_scope with handler.
Notation "x <- m ;; k" := (bind m (fun x => k))
  (at level 100, m at next level, right associativity) : handler_scope.
Notation "m ;; k" := (bind m (fun _ => k))
  (at level 100, right associativity) : handler_scope.

End Handler.

(** Decimal rendering of an integer-valued JavaScript number, as a template
    literal or [Number.prototype.toString] produces it. *)
Definition numberToString (n : Z) : string :=
  NilZero.string_of_int (Z.to_int n).

(** ** The image upload control: [ImageUpload] *)

Module ImageUpload.
Import Handler.
Local Open Scope handler_scope.
Local Open Scope string_scope.
Local Open Scope Z_scope.

(** What the control reads of a [File]. *)
Record File := {
  name : string;
  size : Z;
  type : string
}.

(** The descriptor the backend returns for a stored file ([MediaFile]). *)
Record MediaFile := {
  id : Z;
  title : string;
  file : string;
  file_size : Z;
  mime_type : string
}.

(** What an [<img src>] can show: a stored file's locator, or an object URL
    made by [URL.createObjectURL], named by the order of creation. *)
Inductive Url :=
  | Stored (locator : string)
  | ObjectURL (n : nat).

(** How [api.uploadMedia] settles: with a response carrying the descriptor,
    or rejected, [error.response?.data?.message] being present or not. *)
Inductive UploadResult :=
  | Resolved (data : MediaFile)
  | Rejected (message : option string).

Inductive Effect :=
  | CreateObjectURL (f : File) (url : Url)
  | RevokeObjectURL (url : Url)
  | UploadMedia (f : File) (title category : string)
  | OnUpload (imageUrl : string) (imageData : option MediaFile)
  | ConsoleError
  | SetUploading (b : bool)
  | SetPreview (p : option Url)
  | SetError (e : option string).

(** The three [useState] cells, and the number of object URLs the page has
    created so far. *)
Record State := {
  uploading : bool;
  preview : option Url;
  error : option string;
  objectURLs : nat
}.

(** The props the control reads; an absent prop is [None]. *)
Record Props := {
  currentImage : option string;
  maxSize : option Z
}.

Definition defaultMaxSize : Z := 5242880.

(** [maxSize = 5242880] in the parameter list: the default applies when the
    prop is not passed. *)
Definition maxSizeOf (props : Props) : Z :=
  match maxSize props with
  | Some m => m
  | None => defaultMaxSize
  end.

(** [currentImage || null]: the empty string is falsy. *)
Definition currentImageOrNull (props : Props) : option Url :=
  match currentImage props with
  | Some s => if String.eqb s "" then None else Some (Stored s)
  | None => None
  end.

Definition initialState (props : Props) : State :=
  {| uploading := false; preview := currentImageOrNull props;
     error := None; objectURLs := 0 |}.

(** [Math.round(maxSize / 1024 / 1024)]: the two divisions by a power of
    two are exact, and [Math.round] rounds halves up. *)
Definition roundedMB (maxSize : Z) : Z := (maxSize + 524288) / 1048576.

Definition sizeErrorMessage (maxSize : Z) : string :=
  "File size must be less than " ++ numberToString (roundedMB maxSize) ++ "MB".

(** [error.response?.data?.message || 'Upload failed. Please try again.'] *)
Definition failureMessage (message : option string) : string :=
  match message with
  | Some m => if String.eqb m "" then "Upload failed. Please try again." else m
  | None => "Upload failed. Please try again."
  end.

(** Handlers of the control; they throw what a rejected upload carries. *)
Definition H (A : Type) : Type := M State Effect (option string) A.

Section Control.

Variable props : Props.
(** The backend behind [api.uploadMedia]. *)
Variable backend : File -> UploadResult.


Definition setUploading (b : bool) : H unit :=
  emit (SetUploading b) ;;
  modify (fun st => {| uploading := b; preview := preview st;
                       error := error st; objectURLs := objectURLs st |}).

Definition setPreview (p : option Url) : H unit :=
  emit (SetPreview p) ;;
  modify (fun st => {| uploading := uploading st; preview := p;
                       error := error st; objectURLs := objectURLs st |}).

Definition setError (e : option string) : H unit :=
  emit (SetError e) ;;
  modify (fun st => {| uploading := uploading st; preview := preview st;
                       error := e; objectURLs := objectURLs st |}).

Definition createObjectURL (f : File) : H Url :=
  st <- getState ;;
  let url := ObjectURL (objectURLs st) in
  modify (fun st => {| uploading := uploading st; preview := preview st;
                       error := error st; objectURLs := S (objectURLs st) |}) ;;
  emit (CreateObjectURL f url) ;;
  ret url.

Definition revokeObjectURL (url : Url) : H unit := emit (RevokeObjectURL url).

Definition uploadMedia (f : File) (title category : string) : H MediaFile :=
  emit (UploadMedia f title category) ;;
  match backend f with
  | Resolved data => ret data
  | Rejected message => throw message
  end.

Definition onUpload (imageUrl : string) (imageData : option MediaFile) : H unit :=
  emit (OnUpload imageUrl imageData).

(** [onDrop] (lines 28-75).  The [FormData] built on lines 53-56 is never
    used and is left out. *)
Definition onDrop (acceptedFiles : list File) : H unit :=
  match acceptedFiles with
  | [] => ret tt
  | file0 :: _ =>
      if size file0 >? maxSizeOf props then
        setError (Some (sizeErrorMessage (maxSizeOf props)))
      else if negb (String.prefix "image/" (type file0)) then
        setError (Some "Please upload an image file")
      else
        setUploading true ;;
        setError None ;;
        tryCatchFinally
          (previewUrl <- createObjectURL file0 ;;
           setPreview (Some previewUrl) ;;
           imageData <- uploadMedia file0 (name file0) "uploads" ;;
           onUpload (file imageData) (Some imageData) ;;
           revokeObjectURL previewUrl)
          (fun message =>
             emit ConsoleError ;;
             setError (Some (failureMessage message)) ;;
             setPreview (currentImageOrNull props))
          (setUploading false)
  end.

(** [removeImage] (lines 84-88). *)
Definition removeImage : H unit :=
  setPreview None ;;
  setError None ;;
  onUpload "" None.

End Control.

(** A file that passes both checks of [onDrop]. *)
Definition accepted (props : Props) (f : File) : Prop :=
  size f <= maxSizeOf props /\ String.prefix "image/" (type f) = true.

(** What an attempt does up to the call of the backend. *)
Definition attemptPrefix (f : File) (u : Url) : list Effect :=
  [SetUploading true; SetError None; CreateObjectURL f u; SetPreview (Some u);
   UploadMedia f (name f) "uploads"].

(** The parent's notifications in a run, in order. *)
Definition notifications (tr : list Effect) : list (string * option MediaFile) :=
  flat_map (fun ev => match ev with
                      | OnUpload imageUrl imageData => [(imageUrl, imageData)]
                      | _ => []
                      end) tr.

(** The object URLs created in a run, in order. *)
Definition creations (tr : list Effect) : list Url :=
  flat_map (fun ev => match ev with
                      | CreateObjectURL _ url => [url]
                      | _ => []
                      end) tr.

(** How often an object URL was released in a run. *)
Definition Url_eqb (a b : Url) : bool :=
  match a, b with
  | Stored x, Stored y => String.eqb x y
  | ObjectURL m, ObjectURL n => Nat.eqb m n
  | _, _ => false
  end.

Definition revocations (url : Url) (tr : list Effect) : nat :=
  List.length (List.filter
    (fun ev => match ev with
               | RevokeObjectURL u => Url_eqb u url
               | _ => false
               end) tr).

Definition isNetworkRequest (ev : Effect) : bool :=
  match ev with
  | UploadMedia _ _ _ => true
  | _ => false
  end.

End ImageUpload.

(** ** Response bodies

    What [response.data] can be once the HTTP client has parsed the body:
    a JSON value.  Numbers are the integers; strings are JavaScript strings.
    An object lists its own properties, each key once. *)

Module Json.

Inductive Json :=
  | JNull
  | JBool (b : bool)
  | JNum (n : Z)
  | JStr (s : jsstring)
  | JArr (items : list Json)
  | JObj (fields : list (string * Json)).

(** A JavaScript value read from a response: [None] is [undefined]. *)
Definition JsValue := option Json.

Fixpoint lookupField (k : string) (fields : list (string * Json)) : JsValue :=
  match fields with
  | [] => None
  | (k', v) :: rest => if String.eqb k k' then Some v else lookupField k rest
  end.

(** The two properties the views read. *)
Inductive Key := results | length.

Definition keyName (k : Key) : string :=
  match k with
  | results => "results"
  | length => "length"
  end.

(** [v.k] for a value [v] that is neither [null] nor [undefined]: an own
    property of an object, the length of an array or of a string, and
    [undefined] in every other case.  [null.k] is a [TypeError]. *)
Definition getProp (v : Json) (k : Key) : option JsValue :=
  match v with
  | JNull => None
  | JObj fields => Some (lookupField (keyName k) fields)
  | JArr items =>
      match k with
      | length => Some (Some (JNum (Z.of_nat (List.length items))))
      | results => Some None
      end
  | JStr s =>
      match k with
      | length => Some (Some (JNum (Z.of_nat (List.length s))))
      | results => Some None
      end
  | JBool _ | JNum _ => Some None
  end.

(** [v?.k]: [undefined] when [v] is [null] or [undefined]. *)
Definition getPropOpt (v : JsValue) (k : Key) : JsValue :=
  match v with
  | None | Some JNull => None
  | Some j =>
      match getProp j k with
      | Some r => r
      | None => None
      end
  end.

Definition truthy (v : JsValue) : bool :=
  match v with
  | None | Some JNull => false
  | Some (JBool b) => b
  | Some (JNum n) => negb (Z.eqb n 0)
  | Some (JStr s) => negb (Nat.eqb (List.length s) 0)
  | Some (JArr _) | Some (JObj _) => true
  end.

(** [a || b] *)
Definition orElse (a b : JsValue) : JsValue := if truthy a then a else b.

End Json.

(** ** The dashboard: [AdminDashboard] in [src/frontend/src/app/admin/page.tsx] *)

Module Dashboard.
Import Handler Json.
Local Open Scope handler_scope.
Local Open Scope Z_scope.

Record DashboardStats := {
  pages : JsValue;
  blogPosts : JsValue;
  sections : JsValue;
  contentBlocks : JsValue
}.

Record State := {
  stats : DashboardStats;
  isLoading : bool
}.

Definition initialState : State :=
  {| stats := {| pages := Some (JNum 0); blogPosts := Some (JNum 0);
                 sections := Some (JNum 0); contentBlocks := Some (JNum 0) |};
     isLoading := true |}.

Inductive Endpoint := Pages | BlogPosts | Sections | ContentBlocks.

(** How a read request settles: resolved with [response.data], or rejected. *)
Inductive Fetch :=
  | Resolved (data : Json)
  | Rejected.

Inductive Effect :=
  | Request (ep : Endpoint)
  | ConsoleError.

(** What a handler of the dashboard can throw. *)
Inductive Failure :=
  | RequestFailed (ep : Endpoint)
  | TypeError.

Definition H (A : Type) : Type := M State Effect Failure A.

(** [res.data.results?.length || res.data.length || 0] (lines 139-142). *)
Definition count (data : Json) : H JsValue :=
  match getProp data results with
  | None => throw TypeError
  | Some r =>
      let n := getPropOpt r length in
      if truthy n then ret n
      else
        match getProp data length with
        | None => throw TypeError
        | Some l => ret (orElse l (Some (JNum 0)))
        end
  end.

Section View.

(** The backend behind the four list calls of the API client. *)
Variable api : Endpoint -> Fetch.

Definition await (ep : Endpoint) : H Json :=
  match api ep with
  | Resolved data => ret data
  | Rejected => throw (RequestFailed ep)
  end.

(** [await Promise.all([a, b, c, d])]: the four requests are issued, then
    the results are awaited together; a rejection rejects the whole. *)
Definition promiseAll4 (a b c d : Endpoint) : H (Json * Json * Json * Json) :=
  emit (Request a) ;; emit (Request b) ;; emit (Request c) ;; emit (Request d) ;;
  ra <- await a ;; rb <- await b ;; rc <- await c ;; rd <- await d ;;
  ret (ra, rb, rc, rd).

Definition setStats (s : DashboardStats) : H unit :=
  modify (fun st => {| stats := s; isLoading := isLoading st |}).

Definition setIsLoading (b : bool) : H unit :=
  modify (fun st => {| stats := stats st; isLoading := b |}).

(** [loadDashboardData] (lines 129-149). *)
Definition loadDashboardData : H unit :=
  tryCatchFinally
    (res <- promiseAll4 Pages BlogPosts Sections ContentBlocks ;;
     let '(pagesRes, blogRes, sectionsRes, blocksRes) := res in
     p <- count pagesRes ;;
     b <- count blogRes ;;
     s <- count sectionsRes ;;
     c <- count blocksRes ;;
     setStats {| pages := p; blogPosts := b; sections := s; contentBlocks := c |})
    (fun _ => emit ConsoleError)
    (setIsLoading false).

End View.

(** What the stat cards show once loading is over. *)
Definition rendered (st : State) : option DashboardStats :=
  if isLoading st then None else Some (stats st).

Definition isNonZero (v : JsValue) : bool := truthy v.

(** The number a list's [length] reads as. *)
Definition lengthOf {A} (l : list A) : JsValue :=
  Some (JNum (Z.of_nat (List.length l))).

(** The requests of one load, in the order they are issued. *)
Definition fourRequests : list Effect :=
  [Request Pages; Request BlogPosts; Request Sections; Request ContentBlocks].

End Dashboard.

(** ** The pages list: [PagesManagement] in
    [src/frontend/src/app/admin/pages/page.tsx] *)

Module PagesList.
Import Handler.
Local Open Scope handler_scope.
Local Open Scope string_scope.
Local Open Scope Z_scope.

(** What the list view reads of a [Page]. *)
Record Page := {
  id : Z;
  title : string;
  section_id : Z;
  status : string
}.

Record State := {
  pages : list Page;
  isLoading : bool;
  selectedSection : string
}.

Inductive Effect :=
  | Confirm (question : string)
  | DeletePage (id : Z)
  | GetPages
  | GetSections
  | ConsoleError.

Definition isNetworkRequest (ev : Effect) : bool :=
  match ev with
  | DeletePage _ | GetPages | GetSections => true
  | Confirm _ | ConsoleError => false
  end.

Definition H (A : Type) : Type := M State Effect unit A.

Definition setPages (l : list Page) : H unit :=
  modify (fun st => {| pages := l; isLoading := isLoading st;
                       selectedSection := selectedSection st |}).

Definition setSelectedSection (v : string) : H unit :=
  modify (fun st => {| pages := pages st; isLoading := isLoading st;
                       selectedSection := v |}).

Section View.

(** The user's answer to [confirm(...)]. *)
Variable userConfirms : bool.
(** Whether the backend accepts the deletion of a page. *)
Variable backendAccepts : Z -> bool.

Definition confirm (question : string) : H bool :=
  emit (Confirm question) ;; ret userConfirms.

Definition deletePage (i : Z) : H unit :=
  emit (DeletePage i) ;;
  if backendAccepts i then ret tt else throw tt.

(** [handleDeletePage] (lines 33-42); [pages] is the list of the render the
    handler was created in. *)
Definition handleDeletePage (pages : list Page) (i : Z) : H unit :=
  ok <- confirm "Are you sure you want to delete this page?" ;;
  if negb ok then ret tt
  else
    tryCatch
      (deletePage i ;;
       setPages (List.filter (fun page => negb (Z.eqb (id page) i)) pages))
      (fun _ => emit ConsoleError).

End View.

(** The [onChange] of the section filter (line 103). *)
Definition onSectionChange (v : string) : H unit := setSelectedSection v.

(** [filteredPages] (lines 44-46). *)
Definition filteredPages (selectedSection : string) (pages : list Page) : list Page :=
  if String.eqb selectedSection "all" then pages
  else List.filter
         (fun page => String.eqb (numberToString (section_id page)) selectedSection)
         pages.

(** The part of the rendered tree that depends on the list (lines 57-66 and
    117-208). *)
Inductive View :=
  | LoadingIndicator
  | EmptyState (heading hint : string)
  | Grid (cards : list Page).

Definition render (st : State) : View :=
  if isLoading st then LoadingIndicator
  else
    let shown := filteredPages (selectedSection st) (pages st) in
    if Nat.eqb (List.length shown) 0 then
      EmptyState "No pages found"
        (if String.eqb (selectedSection st) "all"
         then "Get started by creating your first page."
         else "No pages found in this section.")
    else Grid shown.

End PagesList.

(** ** The image upload control: the drop surface *)

Module DropSurface.
Import Handler ImageUpload.
Local Open Scope Z_scope.

Section Surface.

(** Whether the surface's [accept] prop admits a file's type. *)
Variable admitsType : File -> bool.
Variable props : Props.
Variable backend : File -> UploadResult.

(** A file the surface lets through: of an admitted type and of a size
    between zero and [maxSize]. *)
Definition passes (f : File) : bool :=
  (admitsType f && (0 <=? size f) && (size f <=? maxSizeOf props))%bool.

(** [useDropzone({ onDrop, accept, multiple: false, maxSize })] (lines
    77-82), as react-dropzone documents it: of the dropped files those that
    pass are the accepted files, the others are file rejections; with
    [multiple: false] more than one passing file makes them all rejections. *)
Definition acceptedFiles (dropped : list File) : list File :=
  match List.filter passes dropped with
  | _ :: _ :: _ => []
  | passing => passing
  end.

(** A drop on the control: the surface calls [onDrop] with the accepted
    files; the component passes no handler for the rejections. *)
Definition drop (dropped : list File) : H unit :=
  onDrop props backend (acceptedFiles dropped).

End Surface.

End DropSurface.

(** ** Lists in response bodies *)

Module ListBody.
Import Json.

(** [data.results || data || []], as [loadSections] (new-page form, line 40)
    and [loadData] (pages list, lines 24-25) read the items of a response;
    [None] is the [TypeError] of [null.results]. *)
Definition itemsOf (data : Json) : option JsValue :=
  match getProp data results with
  | None => None
  | Some r => Some (orElse (orElse r (Some data)) (Some (JArr [])))
  end.

End ListBody.

(** ** The new-page form: loading the sections and submitting *)

Module NewPageIO.
Import Handler Json NewPage ListBody.
Local Open Scope handler_scope.

(** The three [useState] cells of [NewPage]. *)
Record State := {
  formData : gmap string FieldValue;
  sections : JsValue;
  isLoading : bool
}.

Definition initialState : State :=
  {| formData := initialFormData; sections := Some (JArr []);
     isLoading := false |}.

(** How [api.getSections] settles. *)
Inductive SectionsFetch :=
  | SectionsResolved (data : Json)
  | SectionsRejected.

(** How [api.createPage] settles; a rejection carries
    [error.response?.data?.message] or nothing. *)
Inductive CreateResult :=
  | Created
  | Refused (message : option string).

Inductive Effect :=
  | PreventDefault
  | GetSections
  | CreatePage (body : gmap string FieldValue)
  | RouterPush (path : string)
  | ConsoleError
  | Alert (message : string)
  | SetIsLoading (b : bool).

(** What a handler of the form can catch. *)
Inductive Failure :=
  | RequestRejected (message : option string)
  | TypeError.

Definition H (A : Type) : Type := M State Effect Failure A.

(** [error.response?.data?.message || 'Failed to create page'] *)
Definition alertText (error : Failure) : string :=
  match error with
  | RequestRejected (Some m) =>
      if String.eqb m "" then "Failed to create page" else m
  | RequestRejected None | TypeError => "Failed to create page"
  end.

Definition setSections (v : JsValue) : H unit :=
  modify (fun st => {| formData := formData st; sections := v;
                       isLoading := isLoading st |}).

Definition setIsLoading (b : bool) : H unit :=
  emit (SetIsLoading b) ;;
  modify (fun st => {| formData := formData st; sections := sections st;
                       isLoading := b |}).

Section Page.

Variable getSections : SectionsFetch.
Variable createPage : gmap string FieldValue -> CreateResult.

(** [loadSections] (lines 37-44). *)
Definition loadSections : H unit :=
  tryCatch
    (emit GetSections ;;
     data <- match getSections with
             | SectionsResolved data => ret data
             | SectionsRejected => throw (RequestRejected None)
             end ;;
     match itemsOf data with
     | Some items => setSections items
     | None => throw TypeError
     end)
    (fun _ => emit ConsoleError).

(** [handleSubmit] (lines 77-90); [formData] is the draft of the render the
    handler belongs to. *)
Definition handleSubmit (formData : gmap string FieldValue) : H unit :=
  emit PreventDefault ;;
  setIsLoading true ;;
  tryCatchFinally
    (emit (CreatePage formData) ;;
     match createPage formData with
     | Created => ret tt
     | Refused message => throw (RequestRejected message)
     end ;;
     emit (RouterPush "/admin/pages"))
    (fun error => emit ConsoleError ;; emit (Alert (alertText error)))
    (setIsLoading false).

End Page.

End NewPageIO.

(** ** The pages list: loading *)

Module PagesLoad.
Import Handler Json ListBody.
Local Open Scope handler_scope.

(** The cells [loadData] writes; the lists are kept as they arrive. *)
Record State := {
  pages : JsValue;
  sections : JsValue;
  isLoading : bool
}.

Definition initialState : State :=
  {| pages := Some (JArr []); sections := Some (JArr []); isLoading := true |}.

Definition H (A : Type) : Type :=
  M State Dashboard.Effect Dashboard.Failure A.

Definition setPages (v : JsValue) : H unit :=
  modify (fun st => {| pages := v; sections := sections st;
                       isLoading := isLoading st |}).

Definition setSections (v : JsValue) : H unit :=
  modify (fun st => {| pages := pages st; sections := v;
                       isLoading := isLoading st |}).

Definition setIsLoading (b : bool) : H unit :=
  modify (fun st => {| pages := pages st; sections := sections st;
                       isLoading := b |}).

Definition items (data : Json) : H JsValue :=
  match itemsOf data with
  | Some v => ret v
  | None => throw Dashboard.TypeError
  end.

Section View.

Variable api : Dashboard.Endpoint -> Dashboard.Fetch.

Definition await (ep : Dashboard.Endpoint) : H Json :=
  match api ep with
  | Dashboard.Resolved data => ret data
  | Dashboard.Rejected => throw (Dashboard.RequestFailed ep)
  end.

(** [loadData] (lines 18-31): [setPages] has run by the time the sections'
    body is read. *)
Definition loadData : H unit :=
  tryCatchFinally
    (emit (Dashboard.Request Dashboard.Pages) ;;
     emit (Dashboard.Request Dashboard.Sections) ;;
     pagesRes <- await Dashboard.Pages ;;
     sectionsRes <- await Dashboard.Sections ;;
     p <- items pagesRes ;;
     setPages p ;;
     s <- items sectionsRes ;;
     setSections s)
    (fun _ => emit Dashboard.ConsoleError)
    (setIsLoading false).

End View.

End PagesLoad.

(** ** The pages list: what a card shows *)

Module PagesView.
Local Open Scope string_scope.

(** What a card reads of a [ContentSection]. *)
Record ContentSection := {
  id : Z;
  display_name : string
}.

(** [sections.find(s => s.id === page.section_id)?.display_name
     || 'Unknown Section'] (line 159). *)
Definition sectionLabel (sections : list ContentSection)
    (page : PagesList.Page) : string :=
  match List.find (fun s => Z.eqb (id s) (PagesList.section_id page)) sections with
  | Some s =>
      if String.eqb (display_name s) "" then "Unknown Section"
      else display_name s
  | None => "Unknown Section"
  end.

(** What [styles[status]] can be: one of the three class strings, or a
    member the object literal inherits. *)
Inductive Badge :=
  | Classes (classes : string)
  | Inherited (member : string).

Section Badges.

(** The property names every object literal inherits. *)
Variable inherited : string -> bool.

(** [getStatusBadge] (lines 48-55): [styles[status] || styles.draft]. *)
Definition getStatusBadge (status : string) : Badge :=
  if String.eqb status "published" then Classes "bg-green-100 text-green-800"
  else if String.eqb status "draft" then Classes "bg-yellow-100 text-yellow-800"
  else if String.eqb status "archived" then Classes "bg-gray-100 text-gray-800"
  else if inherited status then Inherited status
  else Classes "bg-yellow-100 text-yellow-800".

End Badges.

(** The members of [Object.prototype]. *)
Definition objectPrototypeMember (k : string) : bool :=
  existsb (String.eqb k)
    ["constructor"; "hasOwnProperty"; "isPrototypeOf"; "propertyIsEnumerable";
     "toLocaleString"; "toString"; "valueOf"; "__proto__";
     "__defineGetter__"; "__defineSetter__"; "__lookupGetter__";
     "__lookupSetter__"].

End PagesView.

(** ** Editing sessions of the new-page form *)

Module NewPageSessions.
Import NewPage.

(** None of the edits is a change event of the input named [field]. *)
Definition noInputNamed (field : string) (edits : list Edit) : Prop :=
  Forall (fun ed =>
            match ed with
            | Input e => name e <> field
            | Content _ | Image _ => True
            end) edits.

(** Every change event among the edits comes from an input whose name is a
    key of [formData]. *)
Definition inputsNamedIn (formData : gmap string FieldValue)
    (edits : list Edit) : Prop :=
  Forall (fun ed =>
            match ed with
            | Input e => name e ∈ dom formData
            | Content _ | Image _ => True
            end) edits.

End NewPageSessions.

(** * Properties *)

Import NewPage.

(** ** Character classes *)

Ltac class_facts :=
  unfold slugSourceClass, isSlugUnit, isWhiteSpace, isLowerAlpha, isUpperAlpha,
    isDigit, isHyphen, inRange in *;
  repeat match goal with
  | H : _ = true |- _ => apply Is_true_true in H
  | H : _ = false |- _ => apply Is_true_false in H
  | |- _ = true => apply Is_true_true
  | |- _ = false => apply Is_true_false
  end;
  repeat (rewrite ?orb_True, ?andb_True in *);
  repeat match goal with
  | H : context [Is_true (N.leb ?a ?b)] |- _ =>
      rewrite (Is_true_true (N.leb a b)), N.leb_le in H
  | H : context [Is_true (N.eqb ?a ?b)] |- _ =>
      rewrite (Is_true_true (N.eqb a b)), N.eqb_eq in H
  | |- context [Is_true (N.leb ?a ?b)] =>
      rewrite (Is_true_true (N.leb a b)), N.leb_le
  | |- context [Is_true (N.eqb ?a ?b)] =>
      rewrite (Is_true_true (N.eqb a b)), N.eqb_eq
  end;
  lia.

Lemma slugUnit_not_whiteSpace (c : codeUnit) :
  isSlugUnit c = true -> isWhiteSpace c = false.
Proof. intros H. class_facts. Qed.

Lemma slugUnit_in_sourceClass (c : codeUnit) :
  isSlugUnit c = true -> slugSourceClass c = true.
Proof. intros H. class_facts. Qed.

Lemma sourceClass_slugUnit (c : codeUnit) :
  slugSourceClass c = true -> isWhiteSpace c = false -> isSlugUnit c = true.
Proof. intros H1 H2. class_facts. Qed.

Lemma slugUnit_not_upper (c : codeUnit) :
  isSlugUnit c = true -> isUpperAlpha c = false.
Proof. intros H. class_facts. Qed.

Lemma isHyphen_eq (c : codeUnit) : isHyphen c = true -> c = 45%N.
Proof. intros H. class_facts. Qed.

(** ** The replacements and [trim] *)

Section Replacements.

Variable X : codeUnit -> bool.
Variable r : jsstring.

(** A replacement only ever writes code units of the input outside the
    class, and code units of the replacement text. *)
Lemma replaceRunsFrom_forallb (P : codeUnit -> bool) (s : jsstring) :
  forallb P r = true ->
  forallb (fun c => X c || P c)%bool s = true ->
  forall inRun, forallb P (replaceRunsFrom X r inRun s) = true.
Proof.
  intros Hr. induction s as [|c s IH]; intros Hs inRun; simpl in *.
  - reflexivity.
  - apply andb_prop in Hs as [Hc Hs]. destruct (X c) eqn:E.
    + destruct inRun; [auto|]. rewrite forallb_app, Hr. simpl. auto.
    + simpl in Hc. simpl. rewrite Hc. simpl. auto.
Qed.

(** Where the class does not occur there is nothing to replace. *)
Lemma replaceRunsFrom_absent (s : jsstring) :
  forallb (fun c => negb (X c)) s = true ->
  forall inRun, replaceRunsFrom X r inRun s = s.
Proof.
  induction s as [|c s IH]; intros Hs inRun; simpl in *.
  - reflexivity.
  - apply andb_prop in Hs as [Hc Hs]. apply negb_true_iff in Hc.
    rewrite Hc. f_equal. auto.
Qed.

End Replacements.

Lemma forallb_weaken {A} (P Q : A -> bool) (l : list A) :
  (forall a, P a = true -> Q a = true) ->
  forallb P l = true -> forallb Q l = true.
Proof.
  intros HPQ. induction l as [|a l IH]; simpl; [easy|].
  intros H. apply andb_prop in H as [Ha Hl].
  rewrite (HPQ _ Ha). simpl. auto.
Qed.

Lemma removeOutside_forallb (Y : codeUnit -> bool) (s : jsstring) :
  forallb Y (removeOutside Y s) = true.
Proof.
  unfold removeOutside. induction s as [|c s IH]; simpl; [reflexivity|].
  destruct (Y c) eqn:E; simpl; [rewrite E|]; auto.
Qed.

Lemma removeOutside_all (Y : codeUnit -> bool) (s : jsstring) :
  forallb Y s = true -> removeOutside Y s = s.
Proof.
  unfold removeOutside. induction s as [|c s IH]; simpl; [reflexivity|].
  intros H. apply andb_prop in H as [Hc Hs]. rewrite Hc. f_equal. auto.
Qed.

(** Collapsing hyphen runs leaves no two hyphens side by side; inside a run
    the output does not even start with one. *)
Lemma collapse_hyphens_no_run (s : jsstring) :
  forall inRun,
    hasHyphenRun (replaceRunsFrom isHyphen (js "-") inRun s) = false /\
    (inRun = true ->
     startsWithHyphen (replaceRunsFrom isHyphen (js "-") inRun s) = false).
Proof.
  change (js "-") with [45%N].
  induction s as [|c s IH]; intros inRun; simpl.
  - auto.
  - destruct (isHyphen c) eqn:E.
    + destruct inRun.
      * apply IH.
      * destruct (IH true) as [H1 H2]. simpl.
        rewrite H1, (H2 eq_refl). split; [reflexivity|discriminate].
    + simpl. rewrite E. simpl. destruct (IH false) as [H1 _].
      split; [exact H1|reflexivity].
Qed.

(** A string without hyphen runs is left as it is by the collapse. *)
Lemma collapse_hyphens_fixed (s : jsstring) :
  forall inRun,
    hasHyphenRun s = false ->
    (inRun = true -> startsWithHyphen s = false) ->
    replaceRunsFrom isHyphen (js "-") inRun s = s.
Proof.
  change (js "-") with [45%N].
  induction s as [|c s IH]; intros inRun Hrun Hstart; simpl in *.
  - reflexivity.
  - apply orb_false_elim in Hrun as [Hpair Hrun].
    destruct (isHyphen c) eqn:E.
    + destruct inRun; [specialize (Hstart eq_refl); discriminate|].
      simpl in Hpair. apply isHyphen_eq in E. subst c.
      simpl. f_equal. apply IH; auto.
    + f_equal. apply IH; [assumption|discriminate].
Qed.

Lemma trimStart_slug (s : jsstring) :
  forallb isSlugUnit s = true -> trimStart s = s.
Proof.
  destruct s as [|c s]; simpl; [reflexivity|].
  intros H. apply andb_prop in H as [Hc _].
  now rewrite (slugUnit_not_whiteSpace _ Hc).
Qed.

Lemma forallb_rev {A} (P : A -> bool) (l : list A) :
  forallb P (rev l) = forallb P l.
Proof.
  induction l as [|a l IH]; simpl; [reflexivity|].
  rewrite forallb_app, IH. simpl. rewrite andb_true_r. apply andb_comm.
Qed.

(** [trim] finds no white space in a string of slug code units. *)
Lemma trim_slug (s : jsstring) :
  forallb isSlugUnit s = true -> trim s = s.
Proof.
  intros H. unfold trim, trimEnd. rewrite (trimStart_slug s H).
  rewrite trimStart_slug; [apply rev_involutive|].
  now rewrite forallb_rev.
Qed.

(** ** The derived slug *)

Section Slug.

Variable toLowerCase : jsstring -> jsstring.

Lemma slugBeforeTrim_units (title : jsstring) :
  forallb isSlugUnit (slugBeforeTrim toLowerCase title) = true.
Proof.
  unfold slugBeforeTrim, replaceRuns.
  apply replaceRunsFrom_forallb; [reflexivity|].
  apply forallb_weaken with (P := isSlugUnit).
  { intros c Hc. rewrite Hc. apply orb_true_r. }
  apply replaceRunsFrom_forallb; [reflexivity|].
  apply forallb_weaken with (P := slugSourceClass).
  { intros c Hc. destruct (isWhiteSpace c) eqn:E; [reflexivity|].
    simpl. now apply sourceClass_slugUnit. }
  apply removeOutside_forallb.
Qed.

(** [trim] has nothing to remove: the white space is gone by then. *)
Lemma deriveSlug_untrimmed (title : jsstring) :
  deriveSlug toLowerCase title = slugBeforeTrim toLowerCase title.
Proof. unfold deriveSlug. apply trim_slug, slugBeforeTrim_units. Qed.

(** Whatever the title, the slug consists of lowercase letters, digits and
    hyphens. *)
Lemma deriveSlug_units (title : jsstring) :
  forallb isSlugUnit (deriveSlug toLowerCase title) = true.
Proof. rewrite deriveSlug_untrimmed. apply slugBeforeTrim_units. Qed.

(** Whatever the title, the slug has no two hyphens in a row. *)
Lemma deriveSlug_no_hyphen_run (title : jsstring) :
  hasHyphenRun (deriveSlug toLowerCase title) = false.
Proof.
  rewrite deriveSlug_untrimmed. unfold slugBeforeTrim, replaceRuns.
  apply collapse_hyphens_no_run.
Qed.

(** On a string that already has the shape of a slug every step after the
    lower-casing is the identity. *)
Lemma slug_steps_fixed (s : jsstring) :
  forallb isSlugUnit s = true ->
  hasHyphenRun s = false ->
  trim (replaceRuns isHyphen (js "-")
          (replaceRuns isWhiteSpace (js "-")
             (removeOutside slugSourceClass s))) = s.
Proof.
  intros Hu Hr.
  rewrite removeOutside_all
    by (apply forallb_weaken with (P := isSlugUnit);
        [apply slugUnit_in_sourceClass|exact Hu]).
  unfold replaceRuns at 2.
  rewrite replaceRunsFrom_absent
    by (apply forallb_weaken with (P := isSlugUnit); [|exact Hu];
        intros c Hc; now rewrite (slugUnit_not_whiteSpace _ Hc)).
  unfold replaceRuns.
  rewrite collapse_hyphens_fixed by (auto; discriminate).
  now apply trim_slug.
Qed.

End Slug.

Lemma toLowerCaseASCII_slug (s : jsstring) :
  forallb isSlugUnit s = true -> toLowerCaseASCII s = s.
Proof.
  unfold toLowerCaseASCII. induction s as [|c s IH]; simpl; [reflexivity|].
  intros H. apply andb_prop in H as [Hc Hs].
  rewrite (slugUnit_not_upper _ Hc). f_equal. auto.
Qed.

(** C10. The derivation is idempotent: deriving a slug from a derived slug
    returns it unchanged.  The built-in lower-casing enters only through the
    fact that it leaves strings of lowercase letters, digits and hyphens as
    they are. *)
Theorem C10_deriveSlug_idempotent
    (toLowerCase : jsstring -> jsstring)
    (lower_fixes_slugs :
       forall s, forallb isSlugUnit s = true -> toLowerCase s = s)
    (s : jsstring) :
  deriveSlug toLowerCase (deriveSlug toLowerCase s) = deriveSlug toLowerCase s.
Proof.
  pose proof (deriveSlug_units toLowerCase s) as Hu.
  pose proof (deriveSlug_no_hyphen_run toLowerCase s) as Hr.
  unfold deriveSlug at 1. unfold slugBeforeTrim.
  rewrite (lower_fixes_slugs _ Hu).
  now apply slug_steps_fixed.
Qed.

Lemma C10_deriveSlug_idempotent_witness :
  deriveSlug toLowerCaseASCII
    (deriveSlug toLowerCaseASCII (js "  Summer Tour -- 2024!  "))
  = deriveSlug toLowerCaseASCII (js "  Summer Tour -- 2024!  ").
Proof.
  exact (C10_deriveSlug_idempotent toLowerCaseASCII toLowerCaseASCII_slug
           (js "  Summer Tour -- 2024!  ")).
Defined.

Example deriveSlug_summer_tour :
  deriveSlug toLowerCaseASCII (js "Summer Tour 2024!") = js "summer-tour-2024".
Proof. reflexivity. Qed.

(** C1. The slug the form derives keeps the hyphens at its ends: the call
    [trim('-')] removes white space only, none is left at that point, and so
    the slug is the text as the three replacements left it, whatever the
    title.  Typing the title [" hello "] into the untouched form stores the
    slug ["-hello-"]. *)
Theorem C1_derived_slug_keeps_edge_hyphens :
  (forall (toLowerCase : jsstring -> jsstring) (title : jsstring),
     deriveSlug toLowerCase title = slugBeforeTrim toLowerCase title) /\
  let formData :=
    handleInputChange toLowerCaseASCII initialFormData
      (textInput "title" (js " hello ")) in
  formData !! "slug" = Some (VStr (js "-hello-")) /\
  startsWithHyphen (js "-hello-") = true /\
  endsWithHyphen (js "-hello-") = true.
Proof.
  split; [exact deriveSlug_untrimmed|].
  vm_compute. auto.
Qed.

(** ** The new-page form *)

Section FormFacts.

Variable toLowerCase : jsstring -> jsstring.

(** A title edit on a form whose slug field is empty stores the slug derived
    from the text just typed. *)
Lemma title_edit_derives_slug (formData : gmap string FieldValue)
    (e : ChangeEvent) :
  name e = "title" ->
  truthy (formData !! "slug") = false ->
  handleInputChange toLowerCase formData e !! "slug"
  = Some (VStr (deriveSlug toLowerCase (value e))).
Proof.
  intros Hn Hs. unfold handleInputChange. rewrite Hn, Hs. simpl.
  destruct (truthy (formData !! "meta_title")); simpl.
  - apply lookup_insert_eq.
  - rewrite lookup_insert_ne by discriminate. apply lookup_insert_eq.
Qed.

(** An edit of any other field leaves a non-empty slug alone. *)
Lemma nonempty_slug_kept (formData : gmap string FieldValue) (e : ChangeEvent) :
  name e <> "slug" ->
  truthy (formData !! "slug") = true ->
  handleInputChange toLowerCase formData e !! "slug" = formData !! "slug".
Proof.
  intros Hn Hs. unfold handleInputChange. rewrite Hs, andb_false_r.
  destruct (String.eqb (name e) "title" &&
            negb (truthy (formData !! "meta_title")))%bool.
  - rewrite lookup_insert_ne by discriminate. now apply lookup_insert_ne.
  - now apply lookup_insert_ne.
Qed.

(** A direct edit of the slug field stores what was typed. *)
Lemma slug_edit_stored (formData : gmap string FieldValue) (e : ChangeEvent) :
  name e = "slug" ->
  handleInputChange toLowerCase formData e !! "slug" = Some (fieldValue e).
Proof.
  intros Hn. unfold handleInputChange. rewrite Hn. simpl.
  apply lookup_insert_eq.
Qed.

Lemma session_app (formData : gmap string FieldValue)
    (edits more : list Edit) :
  session toLowerCase formData (edits ++ more)
  = session toLowerCase (session toLowerCase formData edits) more.
Proof. unfold session. apply fold_left_app. Qed.

Lemma nonempty_slug_invariant (edits : list Edit) :
  forall formData : gmap string FieldValue,
    truthy (formData !! "slug") = true ->
    slugNeverCleared edits ->
    truthy (session toLowerCase formData edits !! "slug") = true.
Proof.
  induction edits as [|ed edits IH]; intros formData Hs Hed; simpl.
  - exact Hs.
  - inversion Hed as [|? ? Hhd Htl]; subst. apply IH; [|exact Htl].
    destruct ed as [e|content|imageUrl]; simpl.
    + destruct (String.eqb_spec (name e) "slug") as [Heq|Hne].
      * rewrite slug_edit_stored by exact Heq. auto.
      * rewrite nonempty_slug_kept by assumption. exact Hs.
    + unfold handleContentChange.
      rewrite lookup_insert_ne by discriminate. exact Hs.
    + unfold handleImageUpload.
      rewrite lookup_insert_ne by discriminate. exact Hs.
Qed.

End FormFacts.

(** C2, as the form implements it.  Once the user has typed a non-empty
    slug, every later title edit leaves the slug field as it is, for as long
    as no direct edit clears the slug field back to empty. *)
Theorem C2_title_edits_keep_nonempty_slug
    (toLowerCase : jsstring -> jsstring)
    (formData : gmap string FieldValue)
    (direct : ChangeEvent) (later : list Edit) (titleEdit : ChangeEvent) :
  name direct = "slug" ->
  truthy (Some (fieldValue direct)) = true ->
  slugNeverCleared later ->
  name titleEdit = "title" ->
  let before := session toLowerCase formData (Input direct :: later) in
  handleInputChange toLowerCase before titleEdit !! "slug" = before !! "slug".
Proof.
  intros Hd Hv Hl Ht before.
  apply nonempty_slug_kept.
  - rewrite Ht. discriminate.
  - subst before. simpl.
    apply nonempty_slug_invariant; [|exact Hl].
    rewrite slug_edit_stored by exact Hd. exact Hv.
Qed.

Lemma C2_title_edits_keep_nonempty_slug_witness :
  let before :=
    session toLowerCaseASCII initialFormData
      [Input (textInput "slug" (js "my-page"));
       Input (textInput "title" (js "First"));
       Content (js "<p>Hello</p>");
       Input (textInput "slug" (js "my-page-2"))] in
  handleInputChange toLowerCaseASCII before (textInput "title" (js "Second"))
    !! "slug" = before !! "slug".
Proof.
  apply (C2_title_edits_keep_nonempty_slug toLowerCaseASCII initialFormData
           (textInput "slug" (js "my-page"))
           [Input (textInput "title" (js "First"));
            Content (js "<p>Hello</p>");
            Input (textInput "slug" (js "my-page-2"))]
           (textInput "title" (js "Second"))).
  - reflexivity.
  - reflexivity.
  - repeat constructor; simpl; discriminate.
  - reflexivity.
Defined.

(** The emptiness test of line 54 takes a cleared slug field for an untouched
    one: the user types a slug, clears it again, and the next title edit
    overwrites the (empty) slug with a derived one. *)
Lemma C2_cleared_slug_is_overwritten :
  let before :=
    session toLowerCaseASCII initialFormData
      [Input (textInput "slug" (js "x")); Input (textInput "slug" (js ""))] in
  let after :=
    handleInputChange toLowerCaseASCII before (textInput "title" (js "abc")) in
  before !! "slug" = Some (VStr (js "")) /\
  after !! "slug" = Some (VStr (js "abc")) /\
  after !! "slug" <> before !! "slug".
Proof. vm_compute. repeat split; discriminate. Qed.

(** ** The image upload control *)

Module ImageUploadFacts.
Import Handler ImageUpload.
Local Open Scope Z_scope.

Ltac run_handler :=
  unfold tryCatchFinally, tryFinally, tryCatch, setUploading, setPreview,
    setError, createObjectURL, revokeObjectURL, uploadMedia, onUpload,
    bind, emit, modify, getState, ret, throw;
  simpl.

Lemma onDrop_resolved (props : Props) (backend : File -> UploadResult)
    (f : File) (rest : list File) (data : MediaFile)
    (st : State) (tr : list Effect) :
  accepted props f ->
  backend f = Resolved data ->
  let u := ObjectURL (objectURLs st) in
  onDrop props backend (f :: rest) st tr
  = (Returned tt,
     {| uploading := false; preview := Some u; error := None;
        objectURLs := S (objectURLs st) |},
     tr ++ attemptPrefix f u
        ++ [OnUpload (file data) (Some data); RevokeObjectURL u;
            SetUploading false]).
Proof.
  intros [Hsize Htype] Hb u. unfold onDrop.
  destruct (Z.gtb_spec (size f) (maxSizeOf props)) as [Hgt|_]; [lia|].
  rewrite Htype. run_handler. rewrite Hb. simpl.
  repeat rewrite <- app_assoc. reflexivity.
Qed.

Lemma onDrop_rejected (props : Props) (backend : File -> UploadResult)
    (f : File) (rest : list File) (message : option string)
    (st : State) (tr : list Effect) :
  accepted props f ->
  backend f = Rejected message ->
  let u := ObjectURL (objectURLs st) in
  onDrop props backend (f :: rest) st tr
  = (Returned tt,
     {| uploading := false; preview := currentImageOrNull props;
        error := Some (failureMessage message);
        objectURLs := S (objectURLs st) |},
     tr ++ attemptPrefix f u
        ++ [ConsoleError; SetError (Some (failureMessage message));
            SetPreview (currentImageOrNull props); SetUploading false]).
Proof.
  intros [Hsize Htype] Hb u. unfold onDrop.
  destruct (Z.gtb_spec (size f) (maxSizeOf props)) as [Hgt|_]; [lia|].
  rewrite Htype. run_handler. rewrite Hb. simpl.
  repeat rewrite <- app_assoc. reflexivity.
Qed.

(** Without a file there is nothing to do: no error, no preview, no call. *)
Lemma onDrop_no_file (props : Props) (backend : File -> UploadResult)
    (st : State) (tr : list Effect) :
  onDrop props backend [] st tr = (Returned tt, st, tr).
Proof. reflexivity. Qed.

(** A file of the accepted size that is not an image is turned away too. *)
Lemma onDrop_not_an_image (props : Props) (backend : File -> UploadResult)
    (f : File) (rest : list File) (st : State) (tr : list Effect) :
  size f <= maxSizeOf props ->
  String.prefix "image/" (type f) = false ->
  onDrop props backend (f :: rest) st tr
  = (Returned tt,
     {| uploading := uploading st; preview := preview st;
        error := Some "Please upload an image file"%string;
        objectURLs := objectURLs st |},
     (tr ++ [SetError (Some "Please upload an image file"%string)])%list).
Proof.
  intros Hsize Htype. unfold onDrop.
  destruct (Z.gtb_spec (size f) (maxSizeOf props)) as [Hgt|_]; [lia|].
  rewrite Htype. reflexivity.
Qed.

(** C6. A file larger than [maxSize] never reaches the size check of
    [onDrop]: the drop surface is given the same [maxSize], holds the file
    back as a rejection and calls [onDrop] without a file, which returns at
    once.  No request is sent and the uploading flag is not set, but no
    error is shown either: state and trace are as before the drop. *)
Theorem C6_oversized_file_shows_no_error
    (admitsType : File -> bool) (props : Props)
    (backend : File -> UploadResult)
    (f : File) (st : State) (tr : list Effect) :
  maxSizeOf props < size f ->
  DropSurface.acceptedFiles admitsType props [f] = [] /\
  DropSurface.drop admitsType props backend [f] st tr = (Returned tt, st, tr).
Proof.
  intros Hlt.
  assert (DropSurface.acceptedFiles admitsType props [f] = []) as Hnone.
  { unfold DropSurface.acceptedFiles, DropSurface.passes. simpl.
    destruct (Z.leb_spec (size f) (maxSizeOf props)) as [Hle|_]; [lia|].
    now rewrite andb_false_r. }
  split; [exact Hnone|].
  unfold DropSurface.drop. rewrite Hnone. reflexivity.
Qed.

Lemma C6_oversized_file_shows_no_error_witness :
  let props := {| currentImage := None; maxSize := None |} in
  let f := {| name := "poster.png"; size := 5242881; type := "image/png" |} in
  let admitsType := fun f : File => String.prefix "image/" (type f) in
  DropSurface.acceptedFiles admitsType props [f] = [] /\
  DropSurface.drop admitsType props (fun _ => Rejected None) [f]
    (initialState props) []
  = (Returned tt, initialState props, []).
Proof.
  intros props f admitsType.
  apply (C6_oversized_file_shows_no_error admitsType props
           (fun _ => Rejected None) f (initialState props) []).
  vm_compute. reflexivity.
Defined.

(** Handed to [onDrop] directly, the same file sets the size error. *)
Example onDrop_given_oversized_file :
  let props := {| currentImage := None; maxSize := None |} in
  let f := {| name := "poster.png"; size := 5242881; type := "image/png" |} in
  onDrop props (fun _ => Rejected None) [f] (initialState props) []
  = (Returned tt,
     {| uploading := false; preview := None;
        error := Some "File size must be less than 5MB"%string;
        objectURLs := 0 |},
     [SetError (Some "File size must be less than 5MB"%string)]).
Proof. reflexivity. Qed.




(** C4.  When the backend rejects the upload of an accepted file, the object
    URL made for the attempt is never released: the attempt creates it, shows
    it, and the [catch] branch only swaps the preview back. *)
Theorem C4_failed_upload_leaks_object_url
    (props : Props) (backend : File -> UploadResult)
    (f : File) (rest : list File) (message : option string)
    (st : State) (tr : list Effect) :
  accepted props f ->
  backend f = Rejected message ->
  exists st' events u,
    onDrop props backend (f :: rest) st tr = (Returned tt, st', (tr ++ events)%list) /\
    creations events = [u] /\
    revocations u events = 0%nat /\
    uploading st' = false.
Proof.
  intros Hacc Hb.
  eexists _, _, (ObjectURL (objectURLs st)). split.
  { apply onDrop_rejected; eassumption. }
  repeat split.
Qed.

Lemma C4_failed_upload_leaks_object_url_witness :
  let props := {| currentImage := None; maxSize := None |} in
  let f := {| name := "poster.png"; size := 1024; type := "image/png" |} in
  exists st' events u,
    onDrop props (fun _ => Rejected (Some "Disk full"%string)) [f]
      (initialState props) []
    = (Returned tt, st', ([] ++ events)%list) /\
    creations events = [u] /\
    revocations u events = 0%nat /\
    uploading st' = false.
Proof.
  intros props f.
  apply (C4_failed_upload_leaks_object_url props
           (fun _ => Rejected (Some "Disk full"%string)) f []
           (Some "Disk full"%string) (initialState props) []).
  - split; [vm_compute; discriminate|reflexivity].
  - reflexivity.
Defined.

End ImageUploadFacts.

(** ** The dashboard *)

Module DashboardFacts.
Import Handler Json Dashboard.
Local Open Scope Z_scope.

Ltac run_handler :=
  unfold loadDashboardData, promiseAll4, await, setStats, setIsLoading,
    tryCatchFinally, tryFinally, tryCatch, bind, emit, modify, getState,
    ret, throw;
  simpl.

Lemma truthy_lengthOf {A} (l : list A) :
  truthy (lengthOf l) = negb (Nat.eqb (List.length l) 0).
Proof. destruct l; reflexivity. Qed.

Example count_paginated :
  count (JObj [("count"%string, JNum 12); ("next"%string, JNull);
               ("results"%string, JArr [JObj []; JObj []; JObj []])])
    initialState []
  = (Returned (Some (JNum 3)), initialState, []).
Proof. reflexivity. Qed.

Example count_bare :
  count (JArr [JObj []; JObj []]) initialState []
  = (Returned (Some (JNum 2)), initialState, []).
Proof. reflexivity. Qed.

Example count_empty_results :
  count (JObj [("count"%string, JNum 0); ("results"%string, JArr [])])
    initialState []
  = (Returned (Some (JNum 0)), initialState, []).
Proof. reflexivity. Qed.

Example count_neither_shape :
  count (JObj [("detail"%string, JStr (js "Not found."))]) initialState []
  = (Returned (Some (JNum 0)), initialState, []).
Proof. reflexivity. Qed.

(** [null.results] throws, and the handler's [catch] takes over. *)
Example count_null :
  count JNull initialState [] = (Threw TypeError, initialState, []).
Proof. reflexivity. Qed.

(** C8, as the dashboard computes it.  For a response body other than
    [null]: a non-empty nested results list gives its length, whatever else
    the body carries; an empty one defers to the body's own [length] and
    then to zero; a bare collection gives its length; and where neither
    length is truthy the count is zero. *)
Theorem C8_count_of_response
    (data : Json) (st : State) (tr : list Effect) :
  data <> JNull ->
  exists v,
    count data st tr = (Returned v, st, tr) /\
    (forall fields items,
       data = JObj fields ->
       lookupField "results" fields = Some (JArr items) ->
       items <> [] -> v = lengthOf items) /\
    (forall fields,
       data = JObj fields ->
       lookupField "results" fields = Some (JArr []) ->
       v = orElse (lookupField "length" fields) (Some (JNum 0))) /\
    (forall items, data = JArr items -> v = lengthOf items) /\
    (forall r l,
       getProp data results = Some r -> getProp data length = Some l ->
       truthy (getPropOpt r length) = false -> truthy l = false ->
       v = Some (JNum 0)).
Proof.
  intros Hnull. unfold count.
  destruct (getProp data results) as [r|] eqn:Hr;
    [|destruct data; try discriminate; congruence].
  destruct (getProp data length) as [l|] eqn:Hl;
    [|destruct data; try discriminate; congruence].
  destruct (truthy (getPropOpt r length)) eqn:Ht.
  - eexists. split; [reflexivity|]. repeat split.
    + intros fields items -> Hf Hne. simpl in Hr. rewrite Hf in Hr.
      injection Hr as <-. reflexivity.
    + intros fields -> Hf. simpl in Hr. rewrite Hf in Hr.
      injection Hr as <-. discriminate.
    + intros items ->. simpl in Hr. injection Hr as <-. discriminate.
    + intros r' l' Hr' _ Ht' _. injection Hr' as <-. congruence.
  - eexists. split; [reflexivity|]. repeat split.
    + intros fields items -> Hf Hne. simpl in Hr. rewrite Hf in Hr.
      injection Hr as <-. exfalso. change (getPropOpt (Some (JArr items)) length)
        with (lengthOf items) in Ht. rewrite truthy_lengthOf in Ht.
      destruct items; [congruence|discriminate].
    + intros fields -> Hf. simpl in Hl. now injection Hl as <-.
    + intros items ->. simpl in Hl. injection Hl as <-.
      unfold orElse. fold (lengthOf items). rewrite truthy_lengthOf.
      destruct items; reflexivity.
    + intros r' l' _ Hl' _ Hf. injection Hl' as <-.
      unfold orElse. now rewrite Hf.
Qed.

Lemma C8_count_of_response_witness :
  let data :=
    JObj [("count"%string, JNum 2); ("results"%string, JArr [JObj []; JObj []])] in
  exists v,
    count data initialState [] = (Returned v, initialState, []) /\
    (forall fields items,
       data = JObj fields ->
       lookupField "results" fields = Some (JArr items) ->
       items <> [] -> v = lengthOf items) /\
    (forall fields,
       data = JObj fields ->
       lookupField "results" fields = Some (JArr []) ->
       v = orElse (lookupField "length" fields) (Some (JNum 0))) /\
    (forall items, data = JArr items -> v = lengthOf items) /\
    (forall r l,
       getProp data results = Some r -> getProp data length = Some l ->
       truthy (getPropOpt r length) = false -> truthy l = false ->
       v = Some (JNum 0)).
Proof.
  intros data.
  apply (C8_count_of_response data initialState []).
  discriminate.
Defined.

(** A body that carries an empty results list next to a [length] of its own:
    the empty list's length is falsy, so the count is the body's
    [length], not the length of the nested list. *)
Lemma C8_empty_results_yield_own_length :
  let data := JObj [("results"%string, JArr []); ("length"%string, JNum 3)] in
  count data initialState [] = (Returned (Some (JNum 3)), initialState, []) /\
  Some (JNum 3) <> lengthOf (@nil Json).
Proof. split; [reflexivity|discriminate]. Qed.

(** When all four requests resolve with bare collections, each card shows
    the length of its collection. *)
Lemma loadDashboardData_all_resolved
    (api : Endpoint -> Fetch) (p b s c : list Json)
    (st : State) (tr : list Effect) :
  api Pages = Resolved (JArr p) -> api BlogPosts = Resolved (JArr b) ->
  api Sections = Resolved (JArr s) -> api ContentBlocks = Resolved (JArr c) ->
  loadDashboardData api st tr
  = (Returned tt,
     {| stats := {| pages := lengthOf p; blogPosts := lengthOf b;
                    sections := lengthOf s; contentBlocks := lengthOf c |};
        isLoading := false |},
     (tr ++ fourRequests)%list).
Proof.
  intros Hp Hb Hs Hc. run_handler. rewrite Hp, Hb, Hs, Hc.
  unfold fourRequests. repeat rewrite <- app_assoc.
  destruct p, b, s, c; reflexivity.
Qed.

(** C3, as the dashboard implements it.  The four requests are joined by one
    [Promise.all] inside one [try]: when any of them rejects, the error is
    logged once, none of the four counts is updated (they stay at zero on
    the first load), and the loading indicator is cleared. *)
Theorem C3_one_rejection_leaves_all_counts
    (api : Endpoint -> Fetch) (failing : Endpoint)
    (st : State) (tr : list Effect) :
  api failing = Rejected ->
  loadDashboardData api st tr
  = (Returned tt, {| stats := stats st; isLoading := false |},
     (tr ++ fourRequests ++ [ConsoleError])%list).
Proof.
  intros Hrej. run_handler.
  destruct (api Pages) eqn:Hp, (api BlogPosts) eqn:Hb,
    (api Sections) eqn:Hs, (api ContentBlocks) eqn:Hc;
    simpl; repeat rewrite <- app_assoc; try reflexivity.
  destruct failing; congruence.
Qed.

Lemma C3_one_rejection_leaves_all_counts_witness :
  let api := fun ep =>
    match ep with
    | Sections => Rejected
    | _ => Resolved (JArr [JObj []; JObj []; JObj []])
    end in
  loadDashboardData api initialState []
  = (Returned tt, {| stats := stats initialState; isLoading := false |},
     ([] ++ fourRequests ++ [ConsoleError])%list).
Proof.
  intros api.
  apply (C3_one_rejection_leaves_all_counts api Sections initialState []).
  reflexivity.
Defined.

(** One rejected request out of four: the pages request fails, the other
    three resolve with two items each, and every card still shows zero. *)
Lemma C3_three_successes_are_not_shown :
  let api := fun ep =>
    match ep with
    | Pages => Rejected
    | _ => Resolved (JArr [JObj []; JObj []])
    end in
  let st' := snd (fst (loadDashboardData api initialState [])) in
  rendered st'
  = Some {| pages := Some (JNum 0); blogPosts := Some (JNum 0);
            sections := Some (JNum 0); contentBlocks := Some (JNum 0) |} /\
  isNonZero (blogPosts (stats st')) = false /\
  isNonZero (sections (stats st')) = false /\
  isNonZero (contentBlocks (stats st')) = false.
Proof. vm_compute. repeat split. Qed.

End DashboardFacts.

(** ** The pages list *)

Module PagesListFacts.
Import Handler PagesList.
Local Open Scope Z_scope.

Ltac run_handler :=
  unfold handleDeletePage, confirm, deletePage, setPages, onSectionChange,
    setSelectedSection, tryCatch, bind, emit, modify, getState, ret, throw;
  simpl.

(** [pages.filter(page => page.id !== id)] keeps exactly the pages with
    another id. *)
Lemma filter_by_id (i : Z) (pages : list Page) (page : Page) :
  In page (List.filter (fun page => negb (Z.eqb (id page) i)) pages)
  <-> In page pages /\ id page <> i.
Proof. now rewrite filter_In, negb_true_iff, Z.eqb_neq. Qed.

(** Every way a deletion can end; [rendered] is the list of the render the
    handler belongs to, [st] the state its write lands on. *)
Lemma handleDeletePage_outcomes
    (userConfirms : bool) (backendAccepts : Z -> bool)
    (rendered : list Page) (st : State) (tr : list Effect) (i : Z) :
  exists st' events,
    handleDeletePage userConfirms backendAccepts rendered i st tr
    = (Returned tt, st',
       (tr ++ Confirm "Are you sure you want to delete this page?" :: events)%list) /\
    if userConfirms then
      if backendAccepts i then
        events = [DeletePage i] /\
        pages st' = List.filter (fun page => negb (Z.eqb (id page) i)) rendered /\
        (forall page, In page (pages st') <-> In page rendered /\ id page <> i) /\
        isLoading st' = isLoading st /\
        selectedSection st' = selectedSection st
      else
        events = [DeletePage i; ConsoleError] /\ st' = st
    else
      events = [] /\ st' = st.
Proof.
  destruct userConfirms; [destruct (backendAccepts i) eqn:Hb|].
  - exists {| pages := List.filter (fun page => negb (Z.eqb (id page) i)) rendered;
              isLoading := isLoading st; selectedSection := selectedSection st |},
           [DeletePage i].
    split.
    + run_handler. rewrite Hb. simpl. rewrite <- app_assoc. reflexivity.
    + simpl. refine (conj eq_refl (conj eq_refl (conj _ (conj eq_refl eq_refl)))).
      intros page. apply filter_by_id.
  - exists st, [DeletePage i; ConsoleError].
    split; [|split; reflexivity].
    run_handler. rewrite Hb. simpl. repeat rewrite <- app_assoc.
    destruct st; reflexivity.
  - exists st, []. split; [|split; reflexivity].
    run_handler. destruct st; reflexivity.
Qed.

(** C7. Deleting a page.  The user is asked first, and without a
    confirmation nothing else happens; a rejected deletion leaves the state
    as it was and logs the error; nothing is ever fetched again.  An
    accepted deletion, however, writes the list of the render its handler
    belongs to without the pages of that id, whatever the list has become in
    the meantime.  With pages 1, 2 and 3 shown, the user deletes page 1 and,
    before the answer is back, page 2: when the second answer lands the list
    is 1, 3, and page 1, deleted a moment ago, is shown again. *)
Theorem C7_overlapping_deletion_restores_page :
  (forall (userConfirms : bool) (backendAccepts : Z -> bool)
          (rendered : list Page) (st : State) (tr : list Effect) (i : Z),
     exists st' events,
       handleDeletePage userConfirms backendAccepts rendered i st tr
       = (Returned tt, st',
          (tr ++ Confirm "Are you sure you want to delete this page?"
              :: events)%list) /\
       if userConfirms then
         if backendAccepts i then
           events = [DeletePage i] /\
           pages st'
           = List.filter (fun page => negb (Z.eqb (id page) i)) rendered /\
           isLoading st' = isLoading st /\
           selectedSection st' = selectedSection st
         else
           events = [DeletePage i; ConsoleError] /\ st' = st
       else
         events = [] /\ st' = st) /\
  let page1 := {| id := 1; title := "About"; section_id := 1; status := "draft" |} in
  let page2 := {| id := 2; title := "Music"; section_id := 1; status := "published" |} in
  let page3 := {| id := 3; title := "Tours"; section_id := 2; status := "draft" |} in
  let rendered := [page1; page2; page3] in
  let st := {| pages := rendered; isLoading := false; selectedSection := "all" |} in
  let first := handleDeletePage true (fun _ => true) rendered 1 st [] in
  let second :=
    handleDeletePage true (fun _ => true) rendered 2 (snd (fst first)) (snd first) in
  pages (snd (fst first)) = [page2; page3] /\
  pages (snd (fst second)) = [page1; page3] /\
  snd second
  = [Confirm "Are you sure you want to delete this page?"; DeletePage 1;
     Confirm "Are you sure you want to delete this page?"; DeletePage 2].
Proof.
  split.
  - intros userConfirms backendAccepts rendered st tr i.
    destruct (handleDeletePage_outcomes userConfirms backendAccepts rendered
                st tr i) as (st' & events & Hrun & Hcase).
    exists st', events. split; [exact Hrun|].
    destruct userConfirms; [destruct (backendAccepts i)|]; intuition.
  - repeat split.
Qed.

(** A page list with two sections, used below. *)
Example delete_second_of_three :
  let page1 := {| id := 1; title := "About"; section_id := 1; status := "draft" |} in
  let page2 := {| id := 2; title := "Music"; section_id := 1; status := "published" |} in
  let page3 := {| id := 3; title := "Tours"; section_id := 2; status := "draft" |} in
  let st := {| pages := [page1; page2; page3]; isLoading := false;
               selectedSection := "all" |} in
  handleDeletePage true (fun _ => true) (pages st) 2 st []
  = (Returned tt,
     {| pages := [page1; page3]; isLoading := false; selectedSection := "all" |},
     [Confirm "Are you sure you want to delete this page?"; DeletePage 2]).
Proof. reflexivity. Qed.

Lemma filteredPages_no_match (v : string) (pages : list Page) :
  v <> "all"%string ->
  (forall page, In page pages -> numberToString (section_id page) <> v) ->
  filteredPages v pages = [].
Proof.
  intros Hv Hno. unfold filteredPages.
  destruct (String.eqb_spec v "all") as [|_]; [contradiction|].
  induction pages as [|page pages IH]; simpl; [reflexivity|].
  destruct (String.eqb_spec (numberToString (section_id page)) v) as [Heq|_].
  - exfalso. apply (Hno page); [now left|exact Heq].
  - apply IH. intros q Hq. apply Hno. now right.
Qed.

(** C9. The section filter.  Choosing a section only records the choice: it
    makes no call at all and leaves the fetched list as it is, and what is
    shown is [filteredPages] of that list and the choice.  The choice "all"
    shows the whole list unchanged; a section no page belongs to shows the
    empty list, rendered as the "No pages found" state. *)
Theorem C9_section_filter
    (st : State) (tr : list Effect) (v : string) :
  let st' := {| pages := pages st; isLoading := isLoading st;
                selectedSection := v |} in
  onSectionChange v st tr = (Returned tt, st', tr) /\
  filteredPages "all" (pages st) = pages st /\
  (v <> "all"%string ->
   (forall page, In page (pages st) -> numberToString (section_id page) <> v) ->
   filteredPages v (pages st') = [] /\
   (isLoading st = false ->
    render st' = EmptyState "No pages found" "No pages found in this section.")).
Proof.
  intros st'. split; [reflexivity|]. split; [reflexivity|].
  intros Hv Hno.
  pose proof (filteredPages_no_match v (pages st) Hv Hno) as Hempty.
  split; [exact Hempty|].
  intros Hload. unfold render. simpl. rewrite Hload, Hempty. simpl.
  destruct (String.eqb_spec v "all") as [|_]; [contradiction|reflexivity].
Qed.

Lemma C9_section_filter_witness :
  let page1 := {| id := 1; title := "About"; section_id := 1; status := "draft" |} in
  let page2 := {| id := 2; title := "Music"; section_id := 1; status := "published" |} in
  let page3 := {| id := 3; title := "Tours"; section_id := 2; status := "draft" |} in
  let st := {| pages := [page1; page2; page3]; isLoading := false;
               selectedSection := "all" |} in
  let st' := {| pages := pages st; isLoading := false; selectedSection := "7" |} in
  onSectionChange "7" st [] = (Returned tt, st', []) /\
  filteredPages "all" (pages st) = pages st /\
  filteredPages "7" (pages st') = [] /\
  render st' = EmptyState "No pages found" "No pages found in this section.".
Proof.
  intros page1 page2 page3 st st'.
  destruct (C9_section_filter st [] "7") as (Hrun & Hall & Hnone).
  destruct Hnone as (Hempty & Hview).
  - discriminate.
  - intros page [<-|[<-|[<-|[]]]]; vm_compute; discriminate.
  - exact (conj Hrun (conj Hall (conj Hempty (Hview eq_refl)))).
Defined.

End PagesListFacts.

(** * Further properties of the handlers *)

(** ** The derived slug *)

Lemma replaceRuns_nil_iff (X : codeUnit -> bool) (c0 : codeUnit) (s : jsstring) :
  replaceRuns X [c0] s = [] <-> s = [].
Proof.
  unfold replaceRuns. destruct s as [|c s]; simpl; [tauto|].
  destruct (X c); simpl; split; discriminate.
Qed.

Lemma removeOutside_nil_iff (Y : codeUnit -> bool) (s : jsstring) :
  removeOutside Y s = [] <-> forallb (fun c => negb (Y c)) s = true.
Proof.
  unfold removeOutside. induction s as [|c s IH]; simpl; [tauto|].
  destruct (Y c); simpl; [split; discriminate|exact IH].
Qed.

Lemma replaceRunsFrom_length (X : codeUnit -> bool) (c0 : codeUnit)
    (s : jsstring) :
  forall inRun,
    (List.length (replaceRunsFrom X [c0] inRun s) <= List.length s)%nat.
Proof.
  induction s as [|c s IH]; intros inRun; simpl; [lia|].
  destruct (X c); [destruct inRun|]; simpl;
    [specialize (IH true)|specialize (IH true)|specialize (IH false)]; lia.
Qed.

Lemma removeOutside_length (Y : codeUnit -> bool) (s : jsstring) :
  (List.length (removeOutside Y s) <= List.length s)%nat.
Proof.
  unfold removeOutside. induction s as [|c s IH]; simpl; [lia|].
  destruct (Y c); simpl; lia.
Qed.

(** X1. Whatever the title and whatever the lower-casing does to it, the
    derived slug consists of lowercase letters, digits and hyphens only and
    has no two hyphens in a row. *)
Theorem X1_slug_alphabet_and_single_hyphens
    (toLowerCase : jsstring -> jsstring) (title : jsstring) :
  forallb isSlugUnit (deriveSlug toLowerCase title) = true /\
  hasHyphenRun (deriveSlug toLowerCase title) = false.
Proof.
  split; [apply deriveSlug_units|apply deriveSlug_no_hyphen_run].
Qed.

(** X2. The strings the derivation returns unchanged are exactly the strings
    of lowercase letters, digits and hyphens without two hyphens in a row
    (a hyphen at either end included). *)
Theorem X2_slug_fixed_points
    (toLowerCase : jsstring -> jsstring)
    (lower_fixes_slugs :
       forall s, forallb isSlugUnit s = true -> toLowerCase s = s)
    (s : jsstring) :
  deriveSlug toLowerCase s = s
  <-> forallb isSlugUnit s = true /\ hasHyphenRun s = false.
Proof.
  split.
  - intros Hfix. rewrite <- Hfix.
    split; [apply deriveSlug_units|apply deriveSlug_no_hyphen_run].
  - intros [Hu Hr]. unfold deriveSlug, slugBeforeTrim.
    rewrite (lower_fixes_slugs _ Hu). now apply slug_steps_fixed.
Qed.

Lemma X2_slug_fixed_points_witness :
  deriveSlug toLowerCaseASCII (js "-tour-2024-") = js "-tour-2024-"
  <-> forallb isSlugUnit (js "-tour-2024-") = true /\
      hasHyphenRun (js "-tour-2024-") = false.
Proof.
  exact (X2_slug_fixed_points toLowerCaseASCII toLowerCaseASCII_slug
           (js "-tour-2024-")).
Defined.

(** X3. The derived slug is empty exactly when the lower-cased title has no
    lowercase letter, digit, white space or hyphen at all (a title in
    another script, or of punctuation only). *)
Theorem X3_empty_slug
    (toLowerCase : jsstring -> jsstring) (title : jsstring) :
  deriveSlug toLowerCase title = []
  <-> forallb (fun c => negb (slugSourceClass c)) (toLowerCase title) = true.
Proof.
  rewrite deriveSlug_untrimmed. unfold slugBeforeTrim.
  change (js "-") with [45%N].
  rewrite 2!replaceRuns_nil_iff. apply removeOutside_nil_iff.
Qed.

(** X4. The derived slug is never longer than the lower-cased title. *)
Theorem X4_slug_length
    (toLowerCase : jsstring -> jsstring) (title : jsstring) :
  (List.length (deriveSlug toLowerCase title)
   <= List.length (toLowerCase title))%nat.
Proof.
  rewrite deriveSlug_untrimmed. unfold slugBeforeTrim, replaceRuns.
  change (js "-") with [45%N].
  eapply Nat.le_trans; [apply replaceRunsFrom_length|].
  eapply Nat.le_trans; [apply replaceRunsFrom_length|].
  apply removeOutside_length.
Qed.

(** ** The new-page form: derived fields and the draft *)

Section DraftFacts.
Import NewPageSessions.

Variable toLowerCase : jsstring -> jsstring.

Lemma nonempty_meta_title_kept (formData : gmap string FieldValue)
    (e : ChangeEvent) :
  name e <> "meta_title" ->
  truthy (formData !! "meta_title") = true ->
  handleInputChange toLowerCase formData e !! "meta_title"
  = formData !! "meta_title".
Proof.
  intros Hn Hm. unfold handleInputChange. rewrite Hm, andb_false_r.
  destruct (String.eqb (name e) "title" &&
            negb (truthy (formData !! "slug")))%bool.
  - rewrite lookup_insert_ne by discriminate. now apply lookup_insert_ne.
  - now apply lookup_insert_ne.
Qed.

Lemma title_edit_mirrors_meta_title (formData : gmap string FieldValue)
    (e : ChangeEvent) :
  name e = "title" ->
  truthy (formData !! "meta_title") = false ->
  handleInputChange toLowerCase formData e !! "meta_title"
  = Some (VStr (value e)).
Proof.
  intros Hn Hm. unfold handleInputChange. rewrite Hn, Hm. simpl.
  apply lookup_insert_eq.
Qed.

Lemma truthy_VStr (v : jsstring) : v <> [] -> truthy (Some (VStr v)) = true.
Proof. destruct v; [congruence|reflexivity]. Qed.

(** A non-empty derived field survives every edit that is not a direct
    edit of that field. *)
Lemma derived_field_frozen (field : string) (edits : list Edit) :
  field = "slug" \/ field = "meta_title" ->
  forall formData : gmap string FieldValue,
    truthy (formData !! field) = true ->
    noInputNamed field edits ->
    session toLowerCase formData edits !! field = formData !! field.
Proof.
  intros Hfield.
  induction edits as [|ed edits IH]; intros formData Ht Hed; simpl.
  - reflexivity.
  - inversion Hed as [|? ? Hhd Htl]; subst.
    assert (applyEdit toLowerCase formData ed !! field = formData !! field)
      as Hstep.
    { destruct ed as [e|content|imageUrl]; simpl.
      - destruct Hfield as [->| ->];
          [now apply nonempty_slug_kept|now apply nonempty_meta_title_kept].
      - unfold handleContentChange. apply lookup_insert_ne.
        destruct Hfield as [->| ->]; discriminate.
      - unfold handleImageUpload. apply lookup_insert_ne.
        destruct Hfield as [->| ->]; discriminate. }
    rewrite IH; [exact Hstep| |exact Htl]. now rewrite Hstep.
Qed.

End DraftFacts.

(** X5. The slug is derived once.  When a title edit on a form with an empty
    slug has produced a non-empty slug, that slug stays through every later
    edit of the title and of any field other than the slug field itself:
    typing a title key by key derives the slug from the first text that
    gives a non-empty one. *)
Theorem X5_slug_derived_once
    (toLowerCase : jsstring -> jsstring)
    (formData : gmap string FieldValue)
    (first : ChangeEvent) (later : list Edit) :
  name first = "title" ->
  truthy (formData !! "slug") = false ->
  deriveSlug toLowerCase (value first) <> [] ->
  NewPageSessions.noInputNamed "slug" later ->
  session toLowerCase formData (Input first :: later) !! "slug"
  = Some (VStr (deriveSlug toLowerCase (value first))).
Proof.
  intros Hn Hs Hne Hl. simpl.
  rewrite derived_field_frozen; auto.
  - now apply title_edit_derives_slug.
  - rewrite title_edit_derives_slug by assumption. now apply truthy_VStr.
Qed.

Lemma X5_slug_derived_once_witness :
  session toLowerCaseASCII initialFormData
    [Input (textInput "title" (js "S")); Input (textInput "title" (js "Su"));
     Input (textInput "title" (js "Summer Tour"));
     Input (textInput "excerpt" (js "Dates"))] !! "slug"
  = Some (VStr (deriveSlug toLowerCaseASCII (js "S"))).
Proof.
  apply (X5_slug_derived_once toLowerCaseASCII initialFormData
           (textInput "title" (js "S"))
           [Input (textInput "title" (js "Su"));
            Input (textInput "title" (js "Summer Tour"));
            Input (textInput "excerpt" (js "Dates"))]).
  - reflexivity.
  - reflexivity.
  - vm_compute. discriminate.
  - repeat constructor; simpl; discriminate.
Defined.

(** X6. The meta title is mirrored once.  A title edit on a form with an
    empty meta title copies the typed text into it verbatim, and a non-empty
    copy stays through every later edit of the title and of any field other
    than the meta-title field itself. *)
Theorem X6_meta_title_mirrored_once
    (toLowerCase : jsstring -> jsstring)
    (formData : gmap string FieldValue)
    (first : ChangeEvent) (later : list Edit) :
  name first = "title" ->
  truthy (formData !! "meta_title") = false ->
  value first <> [] ->
  NewPageSessions.noInputNamed "meta_title" later ->
  session toLowerCase formData (Input first :: later) !! "meta_title"
  = Some (VStr (value first)).
Proof.
  intros Hn Hm Hne Hl. simpl.
  rewrite derived_field_frozen; auto.
  - now apply title_edit_mirrors_meta_title.
  - rewrite title_edit_mirrors_meta_title by assumption. now apply truthy_VStr.
Qed.

Lemma X6_meta_title_mirrored_once_witness :
  session toLowerCaseASCII initialFormData
    [Input (textInput "title" (js "S")); Input (textInput "title" (js "Su"));
     Input (textInput "slug" (js "summer"))] !! "meta_title"
  = Some (VStr (js "S")).
Proof.
  apply (X6_meta_title_mirrored_once toLowerCaseASCII initialFormData
           (textInput "title" (js "S"))
           [Input (textInput "title" (js "Su"));
            Input (textInput "slug" (js "summer"))]).
  - reflexivity.
  - reflexivity.
  - discriminate.
  - repeat constructor; simpl; discriminate.
Defined.

(** X7. A change event stores what was typed (or the checkbox state) under
    the name of its input.  Every other field keeps its value, except that a
    title event may also write the slug and the meta title. *)
Theorem X7_change_event_frame
    (toLowerCase : jsstring -> jsstring)
    (formData : gmap string FieldValue) (e : ChangeEvent) :
  handleInputChange toLowerCase formData e !! name e = Some (fieldValue e) /\
  forall k : string,
    k <> name e ->
    name e <> "title" \/ (k <> "slug" /\ k <> "meta_title") ->
    handleInputChange toLowerCase formData e !! k = formData !! k.
Proof.
  unfold handleInputChange.
  destruct (String.eqb_spec (name e) "title") as [Ht|Ht]; simpl.
  - split.
    + destruct (truthy (formData !! "slug")),
        (truthy (formData !! "meta_title")); simpl;
        rewrite ?lookup_insert_ne by (rewrite Ht; discriminate);
        apply lookup_insert_eq.
    + intros k Hk [Hc|[Hslug Hmeta]]; [contradiction|].
      destruct (truthy (formData !! "slug")),
        (truthy (formData !! "meta_title")); simpl;
        rewrite ?lookup_insert_ne by congruence; reflexivity.
  - split; [apply lookup_insert_eq|].
    intros k Hk _. now apply lookup_insert_ne.
Qed.

Lemma dom_absorb (formData : gmap string FieldValue) (k : string) :
  k ∈ dom formData -> {[k]} ∪ dom formData = dom formData.
Proof. intros Hk. apply subseteq_union_1_L. now apply singleton_subseteq_l. Qed.

(** X8. The draft keeps its set of fields.  In a session whose change events
    all come from inputs named after fields of the draft, and whose draft
    has the four fields the handlers write by name, the draft has the same
    fields after the session as before. *)
Theorem X8_draft_fields_preserved
    (toLowerCase : jsstring -> jsstring) (edits : list Edit) :
  forall formData : gmap string FieldValue,
    "slug" ∈ dom formData -> "meta_title" ∈ dom formData ->
    "content" ∈ dom formData -> "featured_image" ∈ dom formData ->
    NewPageSessions.inputsNamedIn formData edits ->
    dom (session toLowerCase formData edits) = dom formData.
Proof.
  induction edits as [|ed edits IH]; intros formData Hs Hm Hc Hf Hed; simpl.
  - reflexivity.
  - inversion Hed as [|? ? Hhd Htl]; subst.
    assert (dom (applyEdit toLowerCase formData ed) = dom formData) as Hstep.
    { destruct ed as [e|content|imageUrl]; simpl.
      - unfold handleInputChange.
        destruct (String.eqb (name e) "title" &&
                  negb (truthy (formData !! "slug")))%bool,
          (String.eqb (name e) "title" &&
           negb (truthy (formData !! "meta_title")))%bool;
          rewrite ?dom_insert_L;
          rewrite (dom_absorb formData (name e)) by assumption;
          rewrite ?(dom_absorb formData "slug") by assumption;
          rewrite ?(dom_absorb formData "meta_title") by assumption;
          reflexivity.
      - unfold handleContentChange. rewrite dom_insert_L.
        now apply dom_absorb.
      - unfold handleImageUpload. rewrite dom_insert_L.
        now apply dom_absorb. }
    rewrite IH; rewrite ?Hstep; auto.
    unfold NewPageSessions.inputsNamedIn in *. rewrite Hstep. exact Htl.
Qed.

Lemma initialFormData_has (k : string) :
  is_Some (initialFormData !! k) -> k ∈ dom initialFormData.
Proof. apply elem_of_dom. Qed.

Lemma X8_draft_fields_preserved_witness :
  dom (session toLowerCaseASCII initialFormData
         [Input (textInput "title" (js "About"));
          Content (js "<p>Hello</p>");
          Image (js "/media/a.png");
          Input (textInput "status" (js "published"))])
  = dom initialFormData.
Proof.
  apply (X8_draft_fields_preserved toLowerCaseASCII
           [Input (textInput "title" (js "About"));
            Content (js "<p>Hello</p>");
            Image (js "/media/a.png");
            Input (textInput "status" (js "published"))]
           initialFormData).
  - apply initialFormData_has. vm_compute. eauto.
  - apply initialFormData_has. vm_compute. eauto.
  - apply initialFormData_has. vm_compute. eauto.
  - apply initialFormData_has. vm_compute. eauto.
  - repeat constructor; simpl; apply initialFormData_has; vm_compute; eauto.
Defined.

(** ** Lists in response bodies *)

Module ListBodyFacts.
Import Json ListBody.

(** X9. Reading the items of a response body that is not [null] always
    gives a truthy value: the nested results whenever they are a list, an
    empty one included (unlike the dashboard's count, which passes an empty
    results list over); the body itself when it is a bare list; and the
    empty list when the body is falsy and has no results. *)
Theorem X9_items_of_response (data : Json) :
  data <> JNull ->
  exists v,
    itemsOf data = Some v /\
    truthy v = true /\
    (forall fields items,
       data = JObj fields ->
       lookupField "results" fields = Some (JArr items) ->
       v = Some (JArr items)) /\
    (forall items, data = JArr items -> v = Some (JArr items)) /\
    (truthy (Some data) = false -> v = Some (JArr [])).
Proof.
  intros Hnull. unfold itemsOf.
  destruct (getProp data results) as [r|] eqn:Hr;
    [|destruct data; try discriminate; congruence].
  eexists. split; [reflexivity|]. repeat apply conj.
  - unfold orElse. destruct (truthy r) eqn:Htr; rewrite ?Htr; [reflexivity|].
    destruct (truthy (Some data)) eqn:Htd; rewrite ?Htd; reflexivity.
  - intros fields items -> Hf. simpl in Hr. rewrite Hf in Hr.
    now injection Hr as <-.
  - intros items ->. simpl in Hr. now injection Hr as <-.
  - intros Hfalsy. unfold orElse.
    destruct data; try discriminate; simpl in Hr; injection Hr as <-;
      simpl in *; rewrite ?Hfalsy; try reflexivity; congruence.
Qed.

Lemma X9_items_of_response_witness :
  let data := JObj [("count"%string, JNum 0); ("results"%string, JArr [])] in
  exists v,
    itemsOf data = Some v /\
    truthy v = true /\
    (forall fields items,
       data = JObj fields ->
       lookupField "results" fields = Some (JArr items) ->
       v = Some (JArr items)) /\
    (forall items, data = JArr items -> v = Some (JArr items)) /\
    (truthy (Some data) = false -> v = Some (JArr [])).
Proof.
  intros data. apply (X9_items_of_response data). discriminate.
Defined.

End ListBodyFacts.

(** ** The new-page form: loading the sections and submitting *)

Module NewPageIOFacts.
Import Handler Json ListBody NewPageIO.

Ltac run_handler :=
  unfold handleSubmit, loadSections, setIsLoading, setSections,
    tryCatchFinally, tryFinally, tryCatch, bind, emit, modify, getState,
    ret, throw;
  simpl.

(** X10. Submitting the draft.  The draft itself is never changed and the
    loading flag is set before the request and cleared at the end, on both
    exits.  One create request carries the whole draft.  If the backend
    accepts it the only other effect is the navigation to the pages list;
    if it refuses, there is no navigation, the error is logged and one
    alert shows the backend's message, or "Failed to create page" when the
    message is missing or empty. *)
Theorem X10_submit
    (createPage : gmap string NewPage.FieldValue -> CreateResult)
    (st : State) (tr : list Effect) :
  exists events,
    handleSubmit createPage (formData st) st tr
    = (Returned tt,
       {| formData := formData st; sections := sections st;
          isLoading := false |},
       (tr ++ [PreventDefault; SetIsLoading true; CreatePage (formData st)]
           ++ events ++ [SetIsLoading false])%list) /\
    match createPage (formData st) with
    | Created => events = [RouterPush "/admin/pages"]
    | Refused message =>
        exists text,
          events = [ConsoleError; Alert text] /\
          text = match message with
                 | Some m => if String.eqb m "" then "Failed to create page"%string
                             else m
                 | None => "Failed to create page"%string
                 end
    end.
Proof.
  run_handler. destruct (createPage (formData st)) as [|message] eqn:Hc.
  - exists [RouterPush "/admin/pages"]. split; [|reflexivity].
    simpl. repeat rewrite <- app_assoc. reflexivity.
  - exists [ConsoleError; Alert (alertText (RequestRejected message))]. split.
    + simpl. repeat rewrite <- app_assoc. reflexivity.
    + eexists. split; [reflexivity|]. destruct message; reflexivity.
Qed.

(** X11. Loading the sections never throws, sends one request and leaves
    the draft and the loading flag alone.  A rejected request and a [null]
    body both leave the sections as they were and log the error; any other
    body replaces the sections by its items. *)
Theorem X11_load_sections
    (getSections : SectionsFetch) (st : State) (tr : list Effect) :
  exists st' events,
    loadSections getSections st tr
    = (Returned tt, st', (tr ++ GetSections :: events)%list) /\
    formData st' = formData st /\
    isLoading st' = isLoading st /\
    match getSections with
    | SectionsRejected | SectionsResolved JNull =>
        st' = st /\ events = [ConsoleError]
    | SectionsResolved data =>
        itemsOf data = Some (sections st') /\ events = []
    end.
Proof.
  run_handler. destruct getSections as [data|]; simpl.
  - destruct (itemsOf data) as [v|] eqn:Hi; simpl.
    + eexists _, []. split; [reflexivity|].
      destruct data; try discriminate; simpl; auto.
    + exists st, [ConsoleError]. rewrite <- app_assoc.
      split; [reflexivity|].
      destruct data; try discriminate; auto.
  - exists st, [ConsoleError]. rewrite <- app_assoc. auto.
Qed.

End NewPageIOFacts.

(** ** The image upload control: the other exits *)

Module ImageUploadExits.
Import Handler ImageUpload ImageUploadFacts.
Local Open Scope Z_scope.

Lemma onDrop_oversized (props : Props) (backend : File -> UploadResult)
    (f : File) (rest : list File) (st : State) (tr : list Effect) :
  maxSizeOf props < size f ->
  onDrop props backend (f :: rest) st tr
  = (Returned tt,
     {| uploading := uploading st; preview := preview st;
        error := Some (sizeErrorMessage (maxSizeOf props));
        objectURLs := objectURLs st |},
     (tr ++ [SetError (Some (sizeErrorMessage (maxSizeOf props)))])%list).
Proof.
  intros Hlt. unfold onDrop.
  destruct (Z.gtb_spec (size f) (maxSizeOf props)) as [_|Hle]; [|lia].
  reflexivity.
Qed.

(** X12. A file within the size limit whose type does not start with
    "image/" is turned away: the error "Please upload an image file" is
    shown, no request is sent, no object URL is made, and the preview and the
    uploading flag stay as they were. *)
Theorem X12_non_image_rejected
    (props : Props) (backend : File -> UploadResult)
    (f : File) (rest : list File) (st : State) (tr : list Effect) :
  size f <= maxSizeOf props ->
  String.prefix "image/" (type f) = false ->
  exists st' events,
    onDrop props backend (f :: rest) st tr = (Returned tt, st', (tr ++ events)%list) /\
    List.filter isNetworkRequest events = [] /\
    creations events = [] /\
    ~ In (SetUploading true) events /\
    error st' = Some "Please upload an image file"%string /\
    preview st' = preview st /\
    uploading st' = uploading st.
Proof.
  intros Hsize Htype. eexists _, _. split.
  { apply onDrop_not_an_image; assumption. }
  refine (conj eq_refl (conj eq_refl (conj _ (conj eq_refl (conj eq_refl eq_refl))))).
  simpl. intros [H|[]]. discriminate.
Qed.

Lemma X12_non_image_rejected_witness :
  let props := {| currentImage := None; maxSize := None |} in
  let f := {| name := "notes.pdf"; size := 2048; type := "application/pdf" |} in
  exists st' events,
    onDrop props (fun _ => Rejected None) [f] (initialState props) []
    = (Returned tt, st', ([] ++ events)%list) /\
    List.filter isNetworkRequest events = [] /\
    creations events = [] /\
    ~ In (SetUploading true) events /\
    error st' = Some "Please upload an image file"%string /\
    preview st' = preview (initialState props) /\
    uploading st' = uploading (initialState props).
Proof.
  intros props f.
  apply (X12_non_image_rejected props (fun _ => Rejected None) f []
           (initialState props) []).
  - vm_compute. discriminate.
  - reflexivity.
Defined.

(** X13. When the backend rejects the upload of an accepted file, the
    control shows the backend's message, or "Upload failed. Please try
    again." when there is none or it is empty; the preview goes back to
    [currentImage], or to nothing when that is absent or empty; the
    uploading flag is cleared; the parent is not notified; and the upload
    was the only request. *)
Theorem X13_failed_upload_shown
    (props : Props) (backend : File -> UploadResult)
    (f : File) (rest : list File) (message : option string)
    (st : State) (tr : list Effect) :
  accepted props f ->
  backend f = Rejected message ->
  exists st' events,
    onDrop props backend (f :: rest) st tr = (Returned tt, st', (tr ++ events)%list) /\
    error st'
    = Some match message with
           | Some m => if String.eqb m "" then "Upload failed. Please try again."%string
                       else m
           | None => "Upload failed. Please try again."%string
           end /\
    preview st'
    = match currentImage props with
      | Some s => if String.eqb s "" then None else Some (Stored s)
      | None => None
      end /\
    uploading st' = false /\
    notifications events = [] /\
    List.filter isNetworkRequest events = [UploadMedia f (name f) "uploads"] /\
    In ConsoleError events.
Proof.
  intros Hacc Hb. eexists _, _. split.
  { apply onDrop_rejected; eassumption. }
  simpl. repeat apply conj; try reflexivity. auto 10.
Qed.

Lemma X13_failed_upload_shown_witness :
  let props := {| currentImage := Some "/media/old.png"%string;
                  maxSize := None |} in
  let f := {| name := "poster.png"; size := 1024; type := "image/png" |} in
  exists st' events,
    onDrop props (fun _ => Rejected (Some ""%string)) [f] (initialState props) []
    = (Returned tt, st', ([] ++ events)%list) /\
    error st' = Some "Upload failed. Please try again."%string /\
    preview st' = Some (Stored "/media/old.png") /\
    uploading st' = false /\
    notifications events = [] /\
    List.filter isNetworkRequest events = [UploadMedia f (name f) "uploads"] /\
    In ConsoleError events.
Proof.
  intros props f.
  apply (X13_failed_upload_shown props (fun _ => Rejected (Some ""%string)) f []
           (Some ""%string) (initialState props) []).
  - split; [vm_compute; discriminate|reflexivity].
  - reflexivity.
Defined.

(** X14. Whatever is dropped and however the backend answers, [onDrop]
    returns without throwing, sends at most one request and makes exactly
    one object URL per request.  If it has set the uploading flag it clears
    it again before returning; otherwise flag and preview are untouched.
    The object URL of an attempt is released exactly when no error is
    logged. *)
Theorem X14_onDrop_exits
    (props : Props) (backend : File -> UploadResult)
    (files : list File) (st : State) (tr : list Effect) :
  exists st' events,
    onDrop props backend files st tr = (Returned tt, st', (tr ++ events)%list) /\
    (List.length (List.filter isNetworkRequest events) <= 1)%nat /\
    List.length (creations events)
    = List.length (List.filter isNetworkRequest events) /\
    objectURLs st' = (objectURLs st + List.length (creations events))%nat /\
    (In (SetUploading true) events -> uploading st' = false) /\
    (~ In (SetUploading true) events ->
     uploading st' = uploading st /\ preview st' = preview st) /\
    (forall u, In u (creations events) ->
       revocations u events = 1%nat /\ ~ In ConsoleError events \/
       revocations u events = 0%nat /\ In ConsoleError events).
Proof.
  destruct files as [|f rest].
  { exists st, []. rewrite app_nil_r. simpl.
    repeat apply conj; auto; try lia; try tauto. }
  destruct (Z.ltb_spec (maxSizeOf props) (size f)) as [Hbig|Hsize].
  { eexists _, _. split; [now apply onDrop_oversized|]. simpl.
    repeat apply conj; auto; try lia; try tauto.
    intros [H|[]]; discriminate. }
  destruct (String.prefix "image/" (type f)) eqn:Htype.
  2:{ eexists _, _. split; [now apply onDrop_not_an_image|]. simpl.
      repeat apply conj; auto; try lia; try tauto.
      intros [H|[]]; discriminate. }
  assert (accepted props f) as Hacc by (split; assumption).
  destruct (backend f) as [data|message] eqn:Hb.
  - eexists _, _. split; [apply onDrop_resolved; eassumption|]. simpl.
    repeat apply conj; auto; try lia.
    + intros Hno. exfalso. apply Hno. now left.
    + intros u [<-|[]]. left. unfold revocations. simpl.
      rewrite Nat.eqb_refl. split; [reflexivity|].
      intros H. repeat destruct H as [H|H]; try discriminate; exact H.
  - eexists _, _. split; [apply onDrop_rejected; eassumption|]. simpl.
    repeat apply conj; auto; try lia.
    + intros Hno. exfalso. apply Hno. now left.
    + intros u [<-|[]]. right. split; [reflexivity|]. auto 10.
Qed.

(** X15. The limit named in the size error is the configured limit rounded
    to whole megabytes: it is off by at most half a megabyte, so a limit
    under 512 KiB is announced as "0MB". *)
Theorem X15_size_message_rounding
    (props : Props) (backend : File -> UploadResult)
    (f : File) (rest : list File) (st : State) (tr : list Effect) :
  maxSizeOf props < size f ->
  exists n,
    error (snd (fst (onDrop props backend (f :: rest) st tr)))
    = Some ("File size must be less than " ++ numberToString n ++ "MB")%string /\
    1048576 * n - 524288 <= maxSizeOf props < 1048576 * n + 524288 /\
    (0 <= maxSizeOf props < 524288 -> n = 0).
Proof.
  intros Hlt. exists (roundedMB (maxSizeOf props)).
  rewrite onDrop_oversized by exact Hlt. simpl.
  split; [reflexivity|]. unfold roundedMB.
  pose proof (Z.div_mod (maxSizeOf props + 524288) 1048576 ltac:(lia)) as Hdm.
  pose proof (Z.mod_pos_bound (maxSizeOf props + 524288) 1048576 ltac:(lia)) as Hb.
  split; [lia|]. intros Hsmall. apply Z.div_small. lia.
Qed.

Lemma X15_size_message_rounding_witness :
  let props := {| currentImage := None; maxSize := Some 204800 |} in
  let f := {| name := "poster.png"; size := 300000; type := "image/png" |} in
  exists n,
    error (snd (fst (onDrop props (fun _ => Rejected None) [f]
                       (initialState props) [])))
    = Some ("File size must be less than " ++ numberToString n ++ "MB")%string /\
    1048576 * n - 524288 <= maxSizeOf props < 1048576 * n + 524288 /\
    (0 <= maxSizeOf props < 524288 -> n = 0).
Proof.
  intros props f.
  apply (X15_size_message_rounding props (fun _ => Rejected None) f []
           (initialState props) []).
  vm_compute. reflexivity.
Defined.

End ImageUploadExits.

(** ** The dashboard: every way a load can end *)

Module DashboardLoads.
Import Handler Json Dashboard DashboardFacts.
Local Open Scope Z_scope.

(** Reading the count throws on a [null] body only, and changes nothing. *)
Lemma count_cases (data : Json) (st : State) (tr : list Effect) :
  data = JNull /\ count data st tr = (Threw TypeError, st, tr) \/
  data <> JNull /\
  exists v, count data st tr = (Returned v, st, tr) /\
            (truthy v = true \/ v = Some (JNum 0)).
Proof.
  destruct data as [|b|n|s|items|fields];
    [left; split; reflexivity|right; split; [discriminate|]..];
    unfold count; simpl; unfold ret, orElse.
  - eexists. split; [reflexivity|]. now right.
  - eexists. split; [reflexivity|]. now right.
  - destruct s; simpl; eexists; (split; [reflexivity|]); [now right|now left].
  - destruct items; simpl; eexists; (split; [reflexivity|]); [now right|now left].
  - destruct (truthy (getPropOpt (lookupField "results" fields) length)) eqn:Hn.
    + eexists. split; [reflexivity|]. now left.
    + destruct (truthy (lookupField "length" fields)) eqn:Hl;
        eexists; (split; [reflexivity|]); [now left|now right].
Qed.

(** A count depends on the body only. *)
Lemma count_frame (data : Json) (v : JsValue)
    (st st0 : State) (tr tr0 : list Effect) :
  count data st tr = (Returned v, st, tr) ->
  count data st0 tr0 = (Returned v, st0, tr0).
Proof.
  unfold count. destruct (getProp data results) as [r|]; [|discriminate].
  destruct (truthy (getPropOpt r length)).
  - unfold ret. intros H. injection H as <-. reflexivity.
  - destruct (getProp data length) as [l|]; [|discriminate].
    unfold ret. intros H. injection H as <-. reflexivity.
Qed.

(** A rejected request ends the load with the counts as they were. *)
Lemma load_rejected (api : Endpoint -> Fetch) (failing : Endpoint)
    (st : State) (tr : list Effect) :
  api failing = Rejected ->
  loadDashboardData api st tr
  = (Returned tt, {| stats := stats st; isLoading := false |},
     (tr ++ fourRequests ++ [ConsoleError])%list).
Proof.
  intros Hrej. run_handler.
  destruct (api Pages) eqn:Hp, (api BlogPosts) eqn:Hb,
    (api Sections) eqn:Hs, (api ContentBlocks) eqn:Hc;
    simpl; repeat rewrite <- app_assoc; try reflexivity.
  destruct failing; congruence.
Qed.

(** X16. A count is never blank: for every body other than [null] the
    computed count is either a truthy value or exactly the number zero. *)
Theorem X16_count_truthy_or_zero
    (data : Json) (st : State) (tr : list Effect) :
  data <> JNull ->
  exists v,
    count data st tr = (Returned v, st, tr) /\
    (truthy v = true \/ v = Some (JNum 0)).
Proof.
  intros Hnull. destruct (count_cases data st tr) as [[Heq _]|[_ Hv]];
    [contradiction|exact Hv].
Qed.

Lemma X16_count_truthy_or_zero_witness :
  let data := JObj [("results"%string, JNull); ("length"%string, JStr [])] in
  exists v,
    count data initialState [] = (Returned v, initialState, []) /\
    (truthy v = true \/ v = Some (JNum 0)).
Proof.
  intros data. apply (X16_count_truthy_or_zero data initialState []).
  discriminate.
Defined.

(** X17. Every load of the dashboard returns without throwing, issues the
    four requests and clears the loading indicator.  Either all four
    requests resolved with bodies other than [null], nothing is logged and
    each card holds the count of its body; or the error is logged once and
    the four counts are what they were. *)
Theorem X17_dashboard_load_outcomes
    (api : Endpoint -> Fetch) (st : State) (tr : list Effect) :
  exists st' events,
    loadDashboardData api st tr
    = (Returned tt, st', (tr ++ fourRequests ++ events)%list) /\
    isLoading st' = false /\
    ((events = [] /\
      exists dp db ds dc vp vb vs vc,
        api Pages = Resolved dp /\ api BlogPosts = Resolved db /\
        api Sections = Resolved ds /\ api ContentBlocks = Resolved dc /\
        count dp st tr = (Returned vp, st, tr) /\
        count db st tr = (Returned vb, st, tr) /\
        count ds st tr = (Returned vs, st, tr) /\
        count dc st tr = (Returned vc, st, tr) /\
        stats st' = {| pages := vp; blogPosts := vb; sections := vs;
                       contentBlocks := vc |}) \/
     (events = [ConsoleError] /\ stats st' = stats st)).
Proof.
  destruct (api Pages) as [dp|] eqn:Hp; [|
    eexists _, _; split;
      [now apply (load_rejected api Pages)|split; [reflexivity|now right]]].
  destruct (api BlogPosts) as [db|] eqn:Hb; [|
    eexists _, _; split;
      [now apply (load_rejected api BlogPosts)|split; [reflexivity|now right]]].
  destruct (api Sections) as [ds|] eqn:Hs; [|
    eexists _, _; split;
      [now apply (load_rejected api Sections)|split; [reflexivity|now right]]].
  destruct (api ContentBlocks) as [dc|] eqn:Hc; [|
    eexists _, _; split;
      [now apply (load_rejected api ContentBlocks)|split; [reflexivity|now right]]].
  run_handler. rewrite Hp, Hb, Hs, Hc. simpl.
  repeat rewrite <- app_assoc. simpl.
  set (tr4 := (tr ++ fourRequests)%list).
  change (tr ++ [Request Pages; Request BlogPosts; Request Sections;
                 Request ContentBlocks])%list with tr4.
  destruct (count_cases dp st tr4) as [[-> Ep]|[_ (vp & Ep & _)]];
    rewrite Ep; simpl.
  { exists {| stats := stats st; isLoading := false |}, [ConsoleError].
    simpl. subst tr4. rewrite <- app_assoc. auto. }
  destruct (count_cases db st tr4) as [[-> Eb]|[_ (vb & Eb & _)]];
    rewrite Eb; simpl.
  { exists {| stats := stats st; isLoading := false |}, [ConsoleError].
    simpl. subst tr4. rewrite <- app_assoc. auto. }
  destruct (count_cases ds st tr4) as [[-> Es]|[_ (vs & Es & _)]];
    rewrite Es; simpl.
  { exists {| stats := stats st; isLoading := false |}, [ConsoleError].
    simpl. subst tr4. rewrite <- app_assoc. auto. }
  destruct (count_cases dc st tr4) as [[-> Ec]|[_ (vc & Ec & _)]];
    rewrite Ec; simpl.
  { exists {| stats := stats st; isLoading := false |}, [ConsoleError].
    simpl. subst tr4. rewrite <- app_assoc. auto. }
  eexists _, []. split; [reflexivity|].
  split; [reflexivity|]. left. split; [reflexivity|].
  exists dp, db, ds, dc, vp, vb, vs, vc.
  repeat apply conj; try reflexivity; eapply count_frame; eassumption.
Qed.

End DashboardLoads.

(** ** The pages list: filter, deletion and the cards *)

Module PagesListMore.
Import Handler PagesList PagesListFacts.
Local Open Scope Z_scope.

(** The decimal rendering reads back as the number it came from. *)
Lemma numberToString_reads_back (n : Z) :
  NilZero.int_of_string (numberToString n) = Some (Z.to_int n).
Proof.
  unfold numberToString. apply NilZero.isi.
  - intros H. pose proof (f_equal Z.of_int H) as H0.
    rewrite DecimalZ.of_to in H0. simpl in H0. subst n. discriminate H.
  - intros H. pose proof (f_equal Z.of_int H) as H0.
    rewrite DecimalZ.of_to in H0. simpl in H0. subst n. discriminate H.
Qed.

Lemma numberToString_inj (a b : Z) :
  numberToString a = numberToString b -> a = b.
Proof.
  intros H. apply (f_equal NilZero.int_of_string) in H.
  rewrite !numberToString_reads_back in H. injection H as H.
  apply (f_equal Z.of_int) in H. now rewrite !DecimalZ.of_to in H.
Qed.

Lemma numberToString_not_all (n : Z) : numberToString n <> "all"%string.
Proof.
  intros H. apply (f_equal NilZero.int_of_string) in H.
  rewrite numberToString_reads_back in H. discriminate.
Qed.

(** X18. What the section filter shows: a page is shown exactly when it was
    fetched and either the choice is "all" or the page's section id, written
    in decimal, is the chosen value. *)
Theorem X18_filtered_pages_membership
    (v : string) (pages : list Page) (page : Page) :
  In page (filteredPages v pages)
  <-> In page pages /\
      (v = "all"%string \/ numberToString (section_id page) = v).
Proof.
  unfold filteredPages. destruct (String.eqb_spec v "all") as [->|Hv].
  - tauto.
  - rewrite filter_In. split.
    + intros [Hin Heq]. split; [exact Hin|]. right. now apply String.eqb_eq.
    + intros [Hin [Hall|Heq]]; [contradiction|].
      split; [exact Hin|now apply String.eqb_eq].
Qed.

(** X19. Choosing the option of a section (its value is the section's id
    written in decimal) shows exactly the fetched pages with that section
    id, in the fetched order. *)
Theorem X19_filter_by_section_id (k : Z) (pages : list Page) :
  filteredPages (numberToString k) pages
  = List.filter (fun page => Z.eqb (section_id page) k) pages.
Proof.
  unfold filteredPages.
  destruct (String.eqb_spec (numberToString k) "all") as [Hall|_];
    [now apply numberToString_not_all in Hall|].
  apply filter_ext. intros page.
  destruct (String.eqb_spec (numberToString (section_id page)) (numberToString k))
    as [Heq|Hne], (Z.eqb_spec (section_id page) k) as [Hk|Hk];
    try reflexivity.
  - now apply numberToString_inj in Heq.
  - now rewrite Hk in Hne.
Qed.

Lemma filter_filter_comm {A} (f g : A -> bool) (l : list A) :
  List.filter f (List.filter g l) = List.filter g (List.filter f l).
Proof.
  induction l as [|a l IH]; simpl; [reflexivity|].
  destruct (f a) eqn:Hf, (g a) eqn:Hg; simpl; rewrite ?Hf, ?Hg, IH; reflexivity.
Qed.

Lemma handleDeletePage_accepted (backendAccepts : Z -> bool)
    (rendered : list Page) (st : State) (tr : list Effect) (i : Z) :
  backendAccepts i = true ->
  handleDeletePage true backendAccepts rendered i st tr
  = (Returned tt,
     {| pages := List.filter (fun page => negb (Z.eqb (id page) i)) rendered;
        isLoading := isLoading st; selectedSection := selectedSection st |},
     (tr ++ [Confirm "Are you sure you want to delete this page?";
             DeletePage i])%list).
Proof.
  intros Hb. run_handler. rewrite Hb. simpl. rewrite <- app_assoc. reflexivity.
Qed.

(** X20. Deleting under an active filter: after a confirmed deletion that
    the backend accepts, whatever the list state was when the answer landed,
    the filtered view is the view of the list of the handler's render under
    the current selection, without the pages of the deleted id. *)
Theorem X20_delete_under_filter
    (backendAccepts : Z -> bool) (rendered : list Page)
    (st : State) (tr : list Effect) (i : Z) :
  backendAccepts i = true ->
  let st' := snd (fst (handleDeletePage true backendAccepts rendered i st tr)) in
  filteredPages (selectedSection st') (pages st')
  = List.filter (fun page => negb (Z.eqb (id page) i))
      (filteredPages (selectedSection st) rendered).
Proof.
  intros Hb st'. subst st'. rewrite handleDeletePage_accepted by exact Hb.
  simpl. unfold filteredPages.
  destruct (String.eqb (selectedSection st) "all"); [reflexivity|].
  apply filter_filter_comm.
Qed.

Lemma X20_delete_under_filter_witness :
  let page1 := {| id := 1; title := "About"; section_id := 1; status := "draft" |} in
  let page2 := {| id := 2; title := "Music"; section_id := 1; status := "published" |} in
  let page3 := {| id := 3; title := "Tours"; section_id := 2; status := "draft" |} in
  let rendered := [page1; page2; page3] in
  let st := {| pages := [page2; page3]; isLoading := false;
               selectedSection := "1" |} in
  let st' := snd (fst (handleDeletePage true (fun _ => true) rendered 2 st [])) in
  filteredPages (selectedSection st') (pages st')
  = List.filter (fun page => negb (Z.eqb (id page) 2))
      (filteredPages (selectedSection st) rendered).
Proof.
  intros page1 page2 page3 rendered st.
  apply (X20_delete_under_filter (fun _ => true) rendered st [] 2). reflexivity.
Defined.

Lemma filter_all {A} (f : A -> bool) (l : list A) :
  (forall a, In a l -> f a = true) -> List.filter f l = l.
Proof.
  induction l as [|a l IH]; simpl; intros H; [reflexivity|].
  rewrite (H a) by now left. f_equal. apply IH. intros b Hb. apply H. now right.
Qed.

Lemma filter_remove_one (i : Z) (l : list Page) :
  List.NoDup (List.map id l) ->
  (exists page, In page l /\ id page = i) ->
  S (List.length (List.filter (fun page => negb (Z.eqb (id page) i)) l))
  = List.length l.
Proof.
  induction l as [|a l IH]; simpl; intros Hnd [page [Hin Hid]]; [contradiction|].
  inversion Hnd as [|? ? Hnotin Hnd']; subst.
  destruct (Z.eqb_spec (id a) (id page)) as [Heq|Hne]; simpl.
  - f_equal. rewrite filter_all; [reflexivity|].
    intros b Hb. apply negb_true_iff, Z.eqb_neq. intros Hbi.
    apply Hnotin. rewrite Heq, <- Hbi. now apply in_map.
  - f_equal. apply IH; [exact Hnd'|]. exists page. split; [|reflexivity].
    destruct Hin as [->|Hin]; [contradiction|exact Hin].
Qed.

(** X21. Of two confirmed and accepted deletions started from the same
    render, the one whose answer lands last decides the list: it is the
    render's list without the pages of the second id, so the pages of the
    first id, if it is another one, are in the list again.  Both requests
    have been sent, each after its question. *)
Theorem X21_overlapping_deletions
    (backendAccepts : Z -> bool) (rendered : list Page)
    (st : State) (tr : list Effect) (a b : Z) :
  backendAccepts a = true ->
  backendAccepts b = true ->
  let first := handleDeletePage true backendAccepts rendered a st tr in
  let second :=
    handleDeletePage true backendAccepts rendered b (snd (fst first)) (snd first) in
  pages (snd (fst second))
  = List.filter (fun page => negb (Z.eqb (id page) b)) rendered /\
  (a <> b ->
   forall page, In page rendered -> id page = a ->
                In page (pages (snd (fst second)))) /\
  snd second
  = (tr ++ [Confirm "Are you sure you want to delete this page?"; DeletePage a;
            Confirm "Are you sure you want to delete this page?"; DeletePage b])%list.
Proof.
  intros Ha Hb first second. subst first second.
  rewrite (handleDeletePage_accepted backendAccepts rendered st tr a Ha). simpl.
  rewrite handleDeletePage_accepted by exact Hb. simpl.
  refine (conj eq_refl (conj _ _)).
  - intros Hab page Hin Hid. apply filter_In. split; [exact Hin|].
    apply negb_true_iff, Z.eqb_neq. congruence.
  - now rewrite <- app_assoc.
Qed.

Lemma X21_overlapping_deletions_witness :
  let page1 := {| id := 1; title := "About"; section_id := 1; status := "draft" |} in
  let page2 := {| id := 2; title := "Music"; section_id := 1; status := "published" |} in
  let rendered := [page1; page2] in
  let st := {| pages := rendered; isLoading := false; selectedSection := "all" |} in
  let first := handleDeletePage true (fun _ => true) rendered 1 st [] in
  let second :=
    handleDeletePage true (fun _ => true) rendered 2 (snd (fst first)) (snd first) in
  pages (snd (fst second))
  = List.filter (fun page => negb (Z.eqb (id page) 2)) rendered /\
  (1 <> 2 ->
   forall page, In page rendered -> id page = 1 ->
                In page (pages (snd (fst second)))) /\
  snd second
  = ([] ++ [Confirm "Are you sure you want to delete this page?"; DeletePage 1;
            Confirm "Are you sure you want to delete this page?"; DeletePage 2])%list.
Proof.
  intros page1 page2 rendered st.
  apply (X21_overlapping_deletions (fun _ => true) rendered st [] 1 2);
    reflexivity.
Defined.

(** X22. When the pages of the handler's render have pairwise different ids
    and one of them has the deleted id, a confirmed and accepted deletion
    writes a list that is exactly one page shorter than the list of that
    render, whatever the list state was when the answer landed. *)
Theorem X22_delete_removes_one
    (backendAccepts : Z -> bool) (rendered : list Page)
    (st : State) (tr : list Effect) (i : Z) :
  backendAccepts i = true ->
  List.NoDup (List.map id rendered) ->
  (exists page, In page rendered /\ id page = i) ->
  let st' := snd (fst (handleDeletePage true backendAccepts rendered i st tr)) in
  S (List.length (pages st')) = List.length rendered.
Proof.
  intros Hb Hnd Hin st'. subst st'.
  rewrite handleDeletePage_accepted by exact Hb. simpl.
  now apply filter_remove_one.
Qed.

Lemma X22_delete_removes_one_witness :
  let page1 := {| id := 1; title := "About"; section_id := 1; status := "draft" |} in
  let page2 := {| id := 2; title := "Music"; section_id := 1; status := "published" |} in
  let rendered := [page1; page2] in
  let st := {| pages := [page2]; isLoading := false; selectedSection := "all" |} in
  let st' := snd (fst (handleDeletePage true (fun _ => true) rendered 2 st [])) in
  S (List.length (pages st')) = List.length rendered.
Proof.
  intros page1 page2 rendered st.
  apply (X22_delete_removes_one (fun _ => true) rendered st [] 2).
  - reflexivity.
  - simpl. repeat constructor; simpl; intuition discriminate.
  - exists page2. split; [simpl; auto|reflexivity].
Defined.

(** X23. Once loading is over the view is either the grid of the filtered
    pages, which is then not empty, or the "No pages found" state, and the
    latter exactly when no fetched page passes the filter; its hint invites
    to create the first page under "all" and names the section otherwise. *)
Theorem X23_grid_or_empty_state (st : State) :
  isLoading st = false ->
  let shown := filteredPages (selectedSection st) (pages st) in
  (shown <> [] /\ render st = Grid shown) \/
  (shown = [] /\
   render st
   = EmptyState "No pages found"
       (if String.eqb (selectedSection st) "all"
        then "Get started by creating your first page."
        else "No pages found in this section.")).
Proof.
  intros Hl shown. unfold render. rewrite Hl. fold shown.
  destruct shown as [|page rest]; simpl; [right|left]; split;
    try reflexivity; discriminate.
Qed.

Lemma X23_grid_or_empty_state_witness :
  let st := {| pages := []; isLoading := false; selectedSection := "all" |} in
  let shown := filteredPages (selectedSection st) (pages st) in
  (shown <> [] /\ render st = Grid shown) \/
  (shown = [] /\
   render st
   = EmptyState "No pages found"
       (if String.eqb (selectedSection st) "all"
        then "Get started by creating your first page."
        else "No pages found in this section.")).
Proof.
  intros st. apply (X23_grid_or_empty_state st). reflexivity.
Defined.

End PagesListMore.

(** ** The pages list: loading and the cards' labels *)

Module PagesLoadFacts.
Import Handler Json ListBody PagesLoad.

Ltac run_handler :=
  unfold loadData, await, items, setPages, setSections, setIsLoading,
    tryCatchFinally, tryFinally, tryCatch, bind, emit, modify, getState,
    ret, throw;
  simpl.

(** X24. Every load of the pages list returns without throwing, issues the
    two requests and clears the loading indicator.  When a request is
    rejected, or the pages' body is [null], both lists stay as they were and
    the error is logged.  When only the sections' body is [null], the pages
    have already been replaced by then: they are updated, the sections are
    not, and the error is logged.  Otherwise both lists are replaced by the
    items of their bodies and nothing is logged. *)
Theorem X24_load_data_outcomes
    (api : Dashboard.Endpoint -> Dashboard.Fetch)
    (st : State) (tr : list Dashboard.Effect) :
  exists st' events,
    loadData api st tr
    = (Returned tt, st',
       (tr ++ [Dashboard.Request Dashboard.Pages;
               Dashboard.Request Dashboard.Sections] ++ events)%list) /\
    isLoading st' = false /\
    match api Dashboard.Pages, api Dashboard.Sections with
    | Dashboard.Resolved dp, Dashboard.Resolved ds =>
        match itemsOf dp, itemsOf ds with
        | Some p, Some s =>
            events = [] /\ pages st' = p /\ sections st' = s
        | Some p, None =>
            events = [Dashboard.ConsoleError] /\
            pages st' = p /\ sections st' = sections st
        | None, _ =>
            events = [Dashboard.ConsoleError] /\
            pages st' = pages st /\ sections st' = sections st
        end
    | _, _ =>
        events = [Dashboard.ConsoleError] /\
        pages st' = pages st /\ sections st' = sections st
    end.
Proof.
  run_handler.
  destruct (api Dashboard.Pages) as [dp|]; simpl.
  2:{ eexists _, [Dashboard.ConsoleError]. repeat rewrite <- app_assoc.
      split; [reflexivity|]. destruct (api Dashboard.Sections); auto. }
  destruct (api Dashboard.Sections) as [ds|]; simpl.
  2:{ eexists _, [Dashboard.ConsoleError]. repeat rewrite <- app_assoc.
      split; [reflexivity|]. auto. }
  destruct (itemsOf dp) as [p|]; simpl.
  2:{ eexists _, [Dashboard.ConsoleError]. repeat rewrite <- app_assoc.
      split; [reflexivity|]. auto. }
  destruct (itemsOf ds) as [s|]; simpl.
  - eexists _, []. repeat rewrite <- app_assoc. split; [reflexivity|]. auto.
  - eexists _, [Dashboard.ConsoleError]. repeat rewrite <- app_assoc.
    split; [reflexivity|]. auto.
Qed.

End PagesLoadFacts.

Module PagesViewFacts.
Import PagesView.

(** X25. For a status that is not the name of an inherited member, the
    badge is one of the three class strings: the status's own for
    "published", "draft" and "archived", and the draft's for every other
    status. *)
Theorem X25_status_badge
    (inherited : string -> bool) (status : string) :
  inherited status = false ->
  exists classes,
    getStatusBadge inherited status = Classes classes /\
    In classes ["bg-green-100 text-green-800"%string;
                "bg-yellow-100 text-yellow-800"%string;
                "bg-gray-100 text-gray-800"%string] /\
    (status = "published"%string -> classes = "bg-green-100 text-green-800"%string) /\
    (status = "archived"%string -> classes = "bg-gray-100 text-gray-800"%string) /\
    (status <> "published"%string -> status <> "archived"%string ->
     classes = "bg-yellow-100 text-yellow-800"%string).
Proof.
  intros Hinh. unfold getStatusBadge. rewrite Hinh.
  destruct (String.eqb_spec status "published") as [->|Hp].
  { eexists. split; [reflexivity|]. simpl.
    repeat apply conj; auto; try discriminate; congruence. }
  destruct (String.eqb_spec status "draft") as [->|Hd].
  { eexists. split; [reflexivity|]. simpl.
    repeat apply conj; auto; try discriminate. }
  destruct (String.eqb_spec status "archived") as [->|Ha].
  { eexists. split; [reflexivity|]. simpl.
    repeat apply conj; auto 6; try discriminate; congruence. }
  eexists. split; [reflexivity|]. simpl.
  repeat apply conj; auto; congruence.
Qed.

Lemma X25_status_badge_witness :
  exists classes,
    getStatusBadge objectPrototypeMember "scheduled" = Classes classes /\
    In classes ["bg-green-100 text-green-800"%string;
                "bg-yellow-100 text-yellow-800"%string;
                "bg-gray-100 text-gray-800"%string] /\
    ("scheduled"%string = "published"%string ->
     classes = "bg-green-100 text-green-800"%string) /\
    ("scheduled"%string = "archived"%string ->
     classes = "bg-gray-100 text-gray-800"%string) /\
    ("scheduled"%string <> "published"%string ->
     "scheduled"%string <> "archived"%string ->
     classes = "bg-yellow-100 text-yellow-800"%string).
Proof.
  apply (X25_status_badge objectPrototypeMember "scheduled"). reflexivity.
Defined.

(** X26. The section line of a card is never blank.  It reads "Unknown
    Section" when no fetched section has the page's section id, and in every
    other case it is either "Unknown Section" or the display name of a
    fetched section with that id. *)
Theorem X26_section_label
    (sections : list ContentSection) (page : PagesList.Page) :
  sectionLabel sections page <> ""%string /\
  ((forall s, In s sections -> id s <> PagesList.section_id page) ->
   sectionLabel sections page = "Unknown Section"%string) /\
  (sectionLabel sections page = "Unknown Section"%string \/
   exists s, In s sections /\ id s = PagesList.section_id page /\
             sectionLabel sections page = display_name s).
Proof.
  unfold sectionLabel.
  destruct (List.find _ sections) as [s|] eqn:Hfind.
  - apply find_some in Hfind as [Hin Hid]. apply Z.eqb_eq in Hid.
    destruct (String.eqb_spec (display_name s) "") as [He|Hne].
    + refine (conj _ (conj _ _)); [discriminate|reflexivity|now left].
    + refine (conj Hne (conj _ _)).
      * intros Hno. now apply Hno in Hin.
      * right. exists s. auto.
  - refine (conj _ (conj _ _)); [discriminate|reflexivity|now left].
Qed.

End PagesViewFacts.
